(** * run-task.py: background supervisor for a streamed coding-assistant run

    A shallow embedding of [src/run-task.py] and the properties of its
    event parser, token formatter, supervisor loop and result reconciler.

    Conventions.
    - A Python [str] is a [string] holding its UTF-8 bytes; operations that
      count characters ([s[:50]], [len]) walk code points, not bytes.
    - A Python [int] is a [Z]; a Python [float] is a primitive binary64
      [float], so rounding is the machine's.
    - A decoded JSON document is a [json] tree; a [dict] keeps its items in
      insertion order.
    - An exception is a value of [exn]; code that can raise returns a
      [result], and code that also mutates the progress dict threads it
      explicitly, so that what was written before a raise stays written.
    - [time.time()] readings are integers counting microseconds. *)

From Stdlib Require Import ZArith List String Ascii Bool Floats DecimalString Lia.
Import ListNotations.

Local Open Scope string_scope.
Local Open Scope Z_scope.

(** ** Exceptions and fallible computations *)

Inductive exn : Type :=
| JSONDecodeError
| KeyError
| AttributeError
| TypeError
| ValueError
| OverflowError
| TimeoutExpired.

Inductive result (A : Type) : Type :=
| Ok (a : A)
| Raise (e : exn).

Arguments Ok {A} a.
Arguments Raise {A} e.

Definition bind {A B : Type} (m : result A) (k : A -> result B) : result B :=
  match m with
  | Ok a => k a
  | Raise e => Raise e
  end.

Declare Scope result_scope.
Delimit Scope result_scope with result.
Notation "x <- m ;; k" := (bind m (fun x => k))
  (at level 61, m at next level, right associativity) : result_scope.

Definition raises {A : Type} (m : result A) : bool :=
  match m with
  | Ok _ => false
  | Raise _ => true
  end.

(** ** Text *)

Module Text.

Definition Z_to_string (z : Z) : string := NilZero.string_of_int (Z.to_int z).

(** [needle in hay] *)
Fixpoint contains (needle hay : string) : bool :=
  prefix needle hay ||
  match hay with
  | EmptyString => false
  | String _ rest => contains needle rest
  end.

(** [s.split(sep)] for a one-character separator; never empty. *)
Fixpoint split_on (sep : ascii) (s : string) : list string :=
  match s with
  | EmptyString => [EmptyString]
  | String c rest =>
      if Ascii.eqb c sep then EmptyString :: split_on sep rest
      else match split_on sep rest with
           | [] => [String c EmptyString]
           | h :: more => String c h :: more
           end
  end.

(** [s.split(sep)[-1]] *)
Definition last_field (sep : ascii) (s : string) : string :=
  last (split_on sep s) EmptyString.

Definition lower_ascii (c : ascii) : ascii :=
  let n := N_of_ascii c in
  if ((65 <=? n) && (n <=? 90))%N then ascii_of_N (n + 32) else c.

(** [s.lower()] on the ASCII letters. The script only compares the result
    with, or searches it for, the ASCII words write, edit, read, bash,
    search and grep; no character outside ASCII lowers to a letter of
    those words, so the tests behave as with the full Unicode mapping. *)
Fixpoint lower (s : string) : string :=
  match s with
  | EmptyString => EmptyString
  | String c rest => String (lower_ascii c) (lower rest)
  end.

(** A UTF-8 continuation byte, [0x80..0xBF]. *)
Definition is_continuation (c : ascii) : bool :=
  let n := N_of_ascii c in ((128 <=? n) && (n <=? 191))%N.

(** [len(s)]: the number of code points. *)
Fixpoint char_count (s : string) : Z :=
  match s with
  | EmptyString => 0
  | String c rest =>
      (if is_continuation c then 0 else 1) + char_count rest
  end.

(** [s[:n]]: the first [n] code points. *)
Fixpoint take_chars (n : nat) (s : string) : string :=
  match s with
  | EmptyString => EmptyString
  | String c rest =>
      if is_continuation c then String c (take_chars n rest)
      else match n with
           | O => EmptyString
           | S k => String c (take_chars k rest)
           end
  end.

(** [list(s)]: one string per code point. *)
Fixpoint chars (s : string) : list string :=
  match s with
  | EmptyString => []
  | String c rest =>
      match chars rest with
      | h :: more =>
          match h with
          | String d _ =>
              if is_continuation d then String c h :: more
              else String c EmptyString :: h :: more
          | EmptyString => String c EmptyString :: more
          end
      | [] => [String c EmptyString]
      end
  end.

(** [sep.join(parts)] *)
Fixpoint join (sep : string) (parts : list string) : string :=
  match parts with
  | [] => EmptyString
  | [p] => p
  | p :: more => p ++ sep ++ join sep more
  end.

End Text.

(** ** Numbers *)

Module Num.

(** The exact value of an integer as an unrounded binary float. *)
Definition spec_of_Z (z : Z) : spec_float :=
  match z with
  | Z0 => S754_zero false
  | Zpos p => S754_finite false p 0
  | Zneg p => S754_finite true p 0
  end.

(** [float(z)], correctly rounded; infinite when [z] is out of range. *)
Definition float_of_Z (z : Z) : float :=
  SF2Prim (binary_normalize prec emax z 0 false).

(** [a / b] on two ints: the correctly rounded quotient. *)
Definition int_truediv (a b : Z) : float :=
  SF2Prim (SFdiv prec emax (spec_of_Z a) (spec_of_Z b)).

(** The integer nearest to [m * 2^e], ties to even. *)
Definition round_half_even (m e : Z) : Z :=
  if 0 <=? e then m * 2 ^ e
  else
    let d := 2 ^ (- e) in
    let q := m / d in
    let r := m mod d in
    match 2 * r ?= d with
    | Lt => q
    | Gt => q + 1
    | Eq => if Z.even q then q else q + 1
    end.

(** [format(x, ".1f")] *)
Definition format_fixed1 (x : float) : string :=
  match Prim2SF x with
  | S754_nan => "nan"
  | S754_infinity s => if s then "-inf" else "inf"
  | S754_zero s => if s then "-0.0" else "0.0"
  | S754_finite s m e =>
      let tenths := round_half_even (Zpos m * 10) e in
      (if s then "-" else "") ++
      Text.Z_to_string (tenths / 10) ++ "." ++ Text.Z_to_string (tenths mod 10)
  end.

(** [math.fmod(x, y)]: the exact remainder, with the sign of [x]. *)
Definition fmod (x y : float) : float :=
  match Prim2SF x, Prim2SF y with
  | S754_nan, _ | _, S754_nan => nan
  | S754_infinity _, _ | _, S754_zero _ => nan
  | S754_zero _, _ => x
  | S754_finite _ _ _, S754_infinity _ => x
  | S754_finite sx mx ex, S754_finite _ my ey =>
      let e := Z.min ex ey in
      let r := Z.rem (Zpos mx * 2 ^ (ex - e)) (Zpos my * 2 ^ (ey - e)) in
      SF2Prim (binary_normalize prec emax (if sx then - r else r) e sx)
  end.

(** [math.floor(x)] as a float. *)
Definition floor (x : float) : float :=
  match Prim2SF x with
  | S754_finite s m e =>
      if 0 <=? e then x
      else
        let v := if s then Zneg m else Zpos m in
        SF2Prim (binary_normalize prec emax (v / 2 ^ (- e)) 0 s)
  | _ => x
  end.

(** [x // y] on floats, following CPython's [float_floor_div]. *)
Definition float_floordiv (x y : float) : float :=
  let md := fmod x y in
  let dv := PrimFloat.div (PrimFloat.sub x md) y in
  let dv :=
    if PrimFloat.eqb md zero then dv
    else if Bool.eqb (PrimFloat.ltb y zero) (PrimFloat.ltb md zero) then dv
    else PrimFloat.sub dv one in
  if PrimFloat.eqb dv zero then
    match Prim2SF (PrimFloat.div x y) with
    | S754_zero true | S754_infinity true | S754_finite true _ _ => neg_zero
    | _ => zero
    end
  else
    let fl := floor dv in
    if PrimFloat.ltb 0.5%float (PrimFloat.sub dv fl)
    then PrimFloat.add fl one else fl.

End Num.

(** A Python number as the progress dict holds it: the token count starts as
    the int [0] and becomes a float once a float is added to it. *)
Inductive pynum : Type :=
| PInt (z : Z)
| PFloat (x : float).

(** What the embedding takes from the interpreter without defining it:
    [repr] of a float and of a string (both only ever shown inside activity
    texts), and whether a slice can be hashed (it can from Python 3.12 on,
    which decides the exception a dict raises when it is sliced). *)
Class PyRuntime : Type := {
  float_repr : float -> string;
  str_repr : string -> string;
  slices_hashable : bool
}.

Section Formatting.

Context {rt : PyRuntime}.

(** [n < k] for an int literal [k] *)
Definition num_ltb (n : pynum) (k : Z) : bool :=
  match n with
  | PInt z => z <? k
  | PFloat x => PrimFloat.ltb x (Num.float_of_Z k)
  end.

(** [str(n)] *)
Definition num_str (n : pynum) : string :=
  match n with
  | PInt z => Text.Z_to_string z
  | PFloat x => float_repr x
  end.

(** [n / k] for a positive int literal [k] *)
Definition num_truediv (n : pynum) (k : Z) : float :=
  match n with
  | PInt z => Num.int_truediv z k
  | PFloat x => PrimFloat.div x (Num.float_of_Z k)
  end.

(** [n // k] for a positive int literal [k] *)
Definition num_floordiv (n : pynum) (k : Z) : pynum :=
  match n with
  | PInt z => PInt (z / k)
  | PFloat x => PFloat (Num.float_floordiv x (Num.float_of_Z k))
  end.

(** [fmt_duration], lines 67-72. *)
Definition fmt_duration (seconds : Z) : string :=
  if seconds <? 60 then Text.Z_to_string seconds ++ "s"
  else
    let m := seconds / 60 in
    Text.Z_to_string m ++ "min".

(** [format_tokens], lines 192-199. *)
Definition format_tokens (n : pynum) : string :=
  if num_ltb n 1000 then num_str n
  else if num_ltb n 10000 then Num.format_fixed1 (num_truediv n 1000) ++ "K"
  else num_str (num_floordiv n 1000) ++ "K".

End Formatting.

(** ** Decoded JSON values and the dynamic operations applied to them *)

(** What [json.loads] returns. A [JObj] lists the items of a dict in
    insertion order; the decoder never repeats a key. *)
#[local] Set Warnings "-register-all".

Inductive json : Type :=
| JNull
| JBool (b : bool)
| JInt (z : Z)
| JFloat (x : float)
| JStr (s : string)
| JArr (elems : list json)
| JObj (items : list (string * json)).

Module Py.

Fixpoint lookup (items : list (string * json)) (k : string) : option json :=
  match items with
  | [] => None
  | (k', v) :: rest => if String.eqb k' k then Some v else lookup rest k
  end.

(** [v.get(k, default)]: only a dict has [get]. *)
Definition get (v : json) (k : string) (default : json) : result json :=
  match v with
  | JObj items =>
      Ok (match lookup items k with
          | Some x => x
          | None => default
          end)
  | _ => Raise AttributeError
  end.

(** [v == s] for a str literal [s] *)
Definition eq_str (v : json) (s : string) : bool :=
  match v with
  | JStr t => String.eqb t s
  | _ => false
  end.

(** [bool(v)] *)
Definition truthy (v : json) : bool :=
  match v with
  | JNull => false
  | JBool b => b
  | JInt z => negb (z =? 0)
  | JFloat x => negb (PrimFloat.eqb x zero)
  | JStr s => negb (String.eqb s EmptyString)
  | JArr elems => match elems with [] => false | _ => true end
  | JObj items => match items with [] => false | _ => true end
  end.

(** [k in v] for a str [k]: key test on a dict, substring test on a str,
    membership on a list; nothing else is a container. *)
Definition contains (k : string) (v : json) : result bool :=
  match v with
  | JObj items => Ok (match lookup items k with Some _ => true | None => false end)
  | JStr s => Ok (Text.contains k s)
  | JArr elems => Ok (existsb (fun x => eq_str x k) elems)
  | _ => Raise TypeError
  end.

(** [v[k]] for a str [k] *)
Definition getitem (v : json) (k : string) : result json :=
  match v with
  | JObj items =>
      match lookup items k with
      | Some x => Ok x
      | None => Raise KeyError
      end
  | _ => Raise TypeError
  end.

(** The values a [for] loop over [v] visits. *)
Definition iter (v : json) : result (list json) :=
  match v with
  | JArr elems => Ok elems
  | JObj items => Ok (map (fun kv => JStr (fst kv)) items)
  | JStr s => Ok (map JStr (Text.chars s))
  | _ => Raise TypeError
  end.

(** [v.lower()] *)
Definition lower (v : json) : result string :=
  match v with
  | JStr s => Ok (Text.lower s)
  | _ => Raise AttributeError
  end.

(** [v.split("/")[-1]] *)
Definition basename (v : json) : result string :=
  match v with
  | JStr s => Ok (Text.last_field "/" s)
  | _ => Raise AttributeError
  end.

(** [float(z)] inside mixed arithmetic: an int too large for a float raises. *)
Definition to_float (z : Z) : result float :=
  let x := Num.float_of_Z z in
  match Prim2SF x with
  | S754_infinity _ => Raise OverflowError
  | _ => Ok x
  end.

(** [n + v], the right-hand side of [state["output_tokens"] += v]. *)
Definition num_add (n : pynum) (v : json) : result pynum :=
  match n, v with
  | PInt a, JInt b => Ok (PInt (a + b))
  | PInt a, JBool b => Ok (PInt (a + Z.b2z b))
  | PInt a, JFloat y =>
      match to_float a with
      | Ok x => Ok (PFloat (x + y))
      | Raise e => Raise e
      end
  | PFloat x, JInt b =>
      match to_float b with
      | Ok y => Ok (PFloat (x + y))
      | Raise e => Raise e
      end
  | PFloat x, JBool b => Ok (PFloat (x + Num.float_of_Z (Z.b2z b)))
  | PFloat x, JFloat y => Ok (PFloat (x + y))
  | _, _ => Raise TypeError
  end.

(** [n > 0] *)
Definition num_pos (n : pynum) : bool :=
  match n with
  | PInt z => 0 <? z
  | PFloat x => PrimFloat.ltb zero x
  end.

Section Rendering.

Context {rt : PyRuntime}.

(** [v[:n]] *)
Definition slice_to (n : nat) (v : json) : result json :=
  match v with
  | JStr s => Ok (JStr (Text.take_chars n s))
  | JArr elems => Ok (JArr (firstn n elems))
  | JObj _ => Raise (if slices_hashable then KeyError else TypeError)
  | _ => Raise TypeError
  end.

(** [repr(v)] *)
Fixpoint repr (v : json) : string :=
  match v with
  | JNull => "None"
  | JBool b => if b then "True" else "False"
  | JInt z => Text.Z_to_string z
  | JFloat x => float_repr x
  | JStr s => str_repr s
  | JArr elems => "[" ++ Text.join ", " (map repr elems) ++ "]"
  | JObj items =>
      "{" ++ Text.join ", "
               (map (fun kv => let '(k, x) := kv in str_repr k ++ ": " ++ repr x)
                    items) ++ "}"
  end.

(** [str(v)], what an f-string interpolates. *)
Definition str (v : json) : string :=
  match v with
  | JStr s => s
  | _ => repr v
  end.

End Rendering.

End Py.

(** ** The decoder, [json.loads]

    A recursive-descent reading of a document, as CPython's scanner does it:
    optional blanks, one value, optional blanks, nothing else. It returns
    [Raise JSONDecodeError] for text that is not a document and
    [Raise ValueError] for an int literal of more than 4300 digits (the
    interpreter's default limit on int conversions). The interpreter's
    recursion limit on deeply nested documents is not modelled. *)

Module Json.

Definition dquote : ascii := ascii_of_N 34.
Definition backslash : ascii := ascii_of_N 92.

Definition is_ws (c : ascii) : bool :=
  let n := N_of_ascii c in
  ((n =? 32) || (n =? 9) || (n =? 10) || (n =? 13))%N.

Fixpoint skip_ws (s : string) : string :=
  match s with
  | String c rest => if is_ws c then skip_ws rest else s
  | EmptyString => s
  end.

Definition digit_val (c : ascii) : option Z :=
  let n := N_of_ascii c in
  if ((48 <=? n) && (n <=? 57))%N then Some (Z.of_N n - 48) else None.

Definition hex_val (c : ascii) : option Z :=
  let n := N_of_ascii c in
  if ((48 <=? n) && (n <=? 57))%N then Some (Z.of_N n - 48)
  else if ((97 <=? n) && (n <=? 102))%N then Some (Z.of_N n - 87)
  else if ((65 <=? n) && (n <=? 70))%N then Some (Z.of_N n - 55)
  else None.

(** The longest run of decimal digits at the head of [s]. *)
Fixpoint take_digits (s : string) : list Z * string :=
  match s with
  | String c rest =>
      match digit_val c with
      | Some d => let '(ds, r) := take_digits rest in (d :: ds, r)
      | None => ([], s)
      end
  | EmptyString => ([], s)
  end.

Definition Z_of_digits (ds : list Z) : Z :=
  fold_left (fun a d => 10 * a + d) ds 0.

(** [s] without the prefix [p], when it has it. *)
Fixpoint strip_prefix (p s : string) : option string :=
  match p, s with
  | EmptyString, _ => Some s
  | String a p', String b s' => if Ascii.eqb a b then strip_prefix p' s' else None
  | String _ _, EmptyString => None
  end.

(** [float("<m>e<e>")]: the float nearest to [m * 10^e]. *)
Definition float_of_decimal (neg : bool) (m e : Z) : float :=
  let sm := if neg then - m else m in
  if m =? 0 then (if neg then neg_zero else zero)
  else if 0 <=? e then SF2Prim (binary_normalize prec emax (sm * 10 ^ e) 0 neg)
  else SF2Prim (SFdiv prec emax (Num.spec_of_Z sm) (Num.spec_of_Z (10 ^ (- e)))).

Definition max_str_digits : nat := 4300.

(** A number at the head of [s]: an optional minus sign; a zero, or a
    nonzero digit and any digits; then, each only when it is complete, a
    point with one digit or more, and an exponent mark with an optional sign
    and one digit or more. [None] when no number starts there. *)
Definition scan_number (s : string) : option (result json * string) :=
  let '(neg, s1) :=
    match s with
    | String c r => if Ascii.eqb c "-" then (true, r) else (false, s)
    | EmptyString => (false, s)
    end in
  let int_part :=
    match s1 with
    | String c r =>
        if Ascii.eqb c "0" then Some ([0], r)
        else match digit_val c with
             | Some _ => Some (take_digits s1)
             | None => None
             end
    | EmptyString => None
    end in
  match int_part with
  | None => None
  | Some (ds, s2) =>
      let '(fs, s3) :=
        match s2 with
        | String c r =>
            if Ascii.eqb c "." then
              match take_digits r with
              | ([], _) => ([], s2)
              | found => found
              end
            else ([], s2)
        | EmptyString => ([], s2)
        end in
      let '(ex, s4) :=
        match s3 with
        | String c r =>
            if Ascii.eqb c "e" || Ascii.eqb c "E" then
              let '(eneg, r1) :=
                match r with
                | String sg r' =>
                    if Ascii.eqb sg "-" then (true, r')
                    else if Ascii.eqb sg "+" then (false, r')
                    else (false, r)
                | EmptyString => (false, r)
                end in
              match take_digits r1 with
              | ([], _) => (None, s3)
              | (es, r2) =>
                  (Some (if eneg then - Z_of_digits es else Z_of_digits es), r2)
              end
            else (None, s3)
        | EmptyString => (None, s3)
        end in
      match fs, ex with
      | [], None =>
          if (max_str_digits <? List.length ds)%nat then Some (Raise ValueError, s4)
          else
            let z := Z_of_digits ds in
            Some (Ok (JInt (if neg then - z else z)), s4)
      | _, _ =>
          let e := match ex with Some e => e | None => 0 end in
          Some (Ok (JFloat (float_of_decimal neg (Z_of_digits (ds ++ fs))
                                             (e - Z.of_nat (List.length fs)))), s4)
      end
  end.

(** The UTF-8 bytes of a code point (a lone surrogate gets three bytes). *)
Definition utf8 (cp : Z) : string :=
  let byte (z : Z) := ascii_of_N (Z.to_N z) in
  let cont (z : Z) := byte (128 + z mod 64) in
  if cp <? 128 then String (byte cp) EmptyString
  else if cp <? 2048 then String (byte (192 + cp / 64)) (String (cont cp) EmptyString)
  else if cp <? 65536 then
    String (byte (224 + cp / 4096))
      (String (cont (cp / 64)) (String (cont cp) EmptyString))
  else
    String (byte (240 + cp / 262144))
      (String (cont (cp / 4096)) (String (cont (cp / 64)) (String (cont cp) EmptyString))).

(** Four hexadecimal digits at the head of [s]. *)
Definition take_hex4 (s : string) : option (Z * string) :=
  match s with
  | String a (String b (String c (String d rest))) =>
      match hex_val a, hex_val b, hex_val c, hex_val d with
      | Some x, Some y, Some z, Some w => Some (((x * 16 + y) * 16 + z) * 16 + w, rest)
      | _, _, _, _ => None
      end
  | _ => None
  end.

Definition simple_escape (c : ascii) : option ascii :=
  let n := N_of_ascii c in
  if (n =? 34)%N then Some dquote
  else if (n =? 92)%N then Some backslash
  else if (n =? 47)%N then Some "/"%char
  else if (n =? 98)%N then Some (ascii_of_N 8)
  else if (n =? 102)%N then Some (ascii_of_N 12)
  else if (n =? 110)%N then Some (ascii_of_N 10)
  else if (n =? 114)%N then Some (ascii_of_N 13)
  else if (n =? 116)%N then Some (ascii_of_N 9)
  else None.

(** The body of a string literal, after its opening quote: the decoded text
    and what follows the closing quote. Control characters are refused
    (strict mode); a [\uD800]-[\uDBFF] escape followed by a [\uDC00]-[\uDFFF]
    escape decodes to one character. *)
Fixpoint scan_string (fuel : nat) (s : string) : option (string * string) :=
  match fuel with
  | O => None
  | S f =>
      match s with
      | EmptyString => None
      | String c r =>
          if Ascii.eqb c dquote then Some (EmptyString, r)
          else if Ascii.eqb c backslash then
            match r with
            | EmptyString => None
            | String e r1 =>
                match simple_escape e with
                | Some ch =>
                    match scan_string f r1 with
                    | Some (t, rest) => Some (String ch t, rest)
                    | None => None
                    end
                | None =>
                    if Ascii.eqb e "u" then
                      match take_hex4 r1 with
                      | None => None
                      | Some (cp, r2) =>
                          let paired :=
                            if (55296 <=? cp) && (cp <=? 56319) then
                              match strip_prefix (String backslash "u") r2 with
                              | Some r3 =>
                                  match take_hex4 r3 with
                                  | Some (lo, r4) =>
                                      if (56320 <=? lo) && (lo <=? 57343)
                                      then Some (Some (65536 + (cp - 55296) * 1024 + (lo - 56320), r4))
                                      else Some None
                                  | None => None
                                  end
                              | None => Some None
                              end
                            else Some None in
                          match paired with
                          | None => None
                          | Some found =>
                              let '(cp', r') :=
                                match found with
                                | Some pr => pr
                                | None => (cp, r2)
                                end in
                              match scan_string f r' with
                              | Some (t, rest) => Some (utf8 cp' ++ t, rest)
                              | None => None
                              end
                          end
                      end
                    else None
                end
            end
          else if (N_of_ascii c <? 32)%N then None
          else
            match scan_string f r with
            | Some (t, rest) => Some (String c t, rest)
            | None => None
            end
      end
  end.

(** [d[k] = v]: a new key goes last, a known key keeps its place. *)
Fixpoint dict_set (items : list (string * json)) (k : string) (v : json)
  : list (string * json) :=
  match items with
  | [] => [(k, v)]
  | (k', v') :: rest =>
      if String.eqb k' k then (k, v) :: rest else (k', v') :: dict_set rest k v
  end.

Definition nan_float : float := PrimFloat.div zero zero.

(** One value at the head of [s] (no leading blanks), and the rest. *)
Fixpoint scan_once (fuel : nat) (s : string) : result (json * string) :=
  match fuel with
  | O => Raise JSONDecodeError
  | S f =>
      match s with
      | EmptyString => Raise JSONDecodeError
      | String c r =>
          if Ascii.eqb c dquote then
            match scan_string (S (String.length r)) r with
            | Some (t, rest) => Ok (JStr t, rest)
            | None => Raise JSONDecodeError
            end
          else if Ascii.eqb c "{" then
            match skip_ws r with
            | String c' r' =>
                if Ascii.eqb c' "}" then Ok (JObj [], r')
                else parse_object f [] (String c' r')
            | EmptyString => Raise JSONDecodeError
            end
          else if Ascii.eqb c "[" then
            match skip_ws r with
            | String c' r' =>
                if Ascii.eqb c' "]" then Ok (JArr [], r')
                else parse_array f [] (String c' r')
            | EmptyString => Raise JSONDecodeError
            end
          else
            match strip_prefix "null" s, strip_prefix "true" s, strip_prefix "false" s with
            | Some rest, _, _ => Ok (JNull, rest)
            | _, Some rest, _ => Ok (JBool true, rest)
            | _, _, Some rest => Ok (JBool false, rest)
            | None, None, None =>
                match strip_prefix "NaN" s, strip_prefix "Infinity" s,
                      strip_prefix "-Infinity" s with
                | Some rest, _, _ => Ok (JFloat nan_float, rest)
                | _, Some rest, _ => Ok (JFloat infinity, rest)
                | _, _, Some rest => Ok (JFloat neg_infinity, rest)
                | None, None, None =>
                    match scan_number s with
                    | Some (Ok v, rest) => Ok (v, rest)
                    | Some (Raise e, _) => Raise e
                    | None => Raise JSONDecodeError
                    end
                end
            end
      end
  end

with parse_array (fuel : nat) (acc : list json) (s : string) : result (json * string) :=
  match fuel with
  | O => Raise JSONDecodeError
  | S f =>
      match scan_once f s with
      | Raise e => Raise e
      | Ok (v, r) =>
          match skip_ws r with
          | String c r' =>
              if Ascii.eqb c "]" then Ok (JArr (rev (v :: acc)), r')
              else if Ascii.eqb c "," then parse_array f (v :: acc) (skip_ws r')
              else Raise JSONDecodeError
          | EmptyString => Raise JSONDecodeError
          end
      end
  end

with parse_object (fuel : nat) (acc : list (string * json)) (s : string)
  : result (json * string) :=
  match fuel with
  | O => Raise JSONDecodeError
  | S f =>
      match s with
      | EmptyString => Raise JSONDecodeError
      | String q r =>
          if negb (Ascii.eqb q dquote) then Raise JSONDecodeError
          else
            match scan_string (S (String.length r)) r with
            | None => Raise JSONDecodeError
            | Some (k, r1) =>
                match skip_ws r1 with
                | EmptyString => Raise JSONDecodeError
                | String colon r2 =>
                    if negb (Ascii.eqb colon ":") then Raise JSONDecodeError
                    else
                      match scan_once f (skip_ws r2) with
                      | Raise e => Raise e
                      | Ok (v, r3) =>
                          match skip_ws r3 with
                          | String c r' =>
                              if Ascii.eqb c "}" then Ok (JObj (dict_set acc k v), r')
                              else if Ascii.eqb c ","
                              then parse_object f (dict_set acc k v) (skip_ws r')
                              else Raise JSONDecodeError
                          | EmptyString => Raise JSONDecodeError
                          end
                      end
                end
            end
      end
  end.

(** [json.loads(s)] *)
Definition loads (s : string) : result json :=
  match scan_once (S (2 * String.length s)) (skip_ws s) with
  | Raise e => Raise e
  | Ok (v, rest) =>
      match skip_ws rest with
      | EmptyString => Ok v
      | String _ _ => Raise JSONDecodeError
      end
  end.

(** JSON text written with apostrophes in place of double quotes, for the
    examples below. *)
Fixpoint text (s : string) : string :=
  match s with
  | EmptyString => EmptyString
  | String c rest => String (if Ascii.eqb c "'" then dquote else c) (text rest)
  end.

End Json.

(** ** Progress state and the event parser *)

(** The [state] dict of [main], lines 364-372. [session_id] is [JNull] for
    Python's [None]; [last_event_time] is a clock reading. *)
Record ProgressState : Type := {
  tool_calls : Z;
  files_written : list string;
  last_activity : string;
  session_id : json;
  last_event_time : Z;
  output_tokens : pynum;
  chunks_since_heartbeat : Z
}.

(** A computation that mutates the progress dict and may raise: the dict
    it leaves behind is returned in both cases. *)
Definition action (A : Type) : Type := ProgressState -> ProgressState * result A.

Definition ret {A : Type} (a : A) : action A := fun st => (st, Ok a).

Definition abind {A B : Type} (m : action A) (k : A -> action B) : action B :=
  fun st =>
    match m st with
    | (st', Ok a) => k a st'
    | (st', Raise e) => (st', Raise e)
    end.

Definition lift {A : Type} (r : result A) : action A := fun st => (st, r).

Definition update (f : ProgressState -> ProgressState) : action unit :=
  fun st => (f st, Ok tt).

Declare Scope action_scope.
Delimit Scope action_scope with action.
Notation "x <- m ;; k" := (abind m (fun x => k))
  (at level 61, m at next level, right associativity) : action_scope.
Notation "m ;; k" := (abind m (fun _ => k))
  (at level 61, right associativity) : action_scope.

(** [for x in xs: body(x)], leaving at the first raise. *)
Fixpoint for_each {A : Type} (xs : list A) (body : A -> action unit) : action unit :=
  match xs with
  | [] => ret tt
  | x :: rest => abind (body x) (fun _ => for_each rest body)
  end.

(** [try: ... except (json.JSONDecodeError, KeyError): pass] *)
Definition except_decode_or_key (m : action unit) : action unit :=
  fun st =>
    match m st with
    | (st', Raise JSONDecodeError) => (st', Ok tt)
    | (st', Raise KeyError) => (st', Ok tt)
    | other => other
    end.

Definition set_last_event_time (t : Z) : action unit :=
  update (fun st =>
    {| tool_calls := tool_calls st; files_written := files_written st;
       last_activity := last_activity st; session_id := session_id st;
       last_event_time := t; output_tokens := output_tokens st;
       chunks_since_heartbeat := chunks_since_heartbeat st |}).

Definition set_session_id (v : json) : action unit :=
  update (fun st =>
    {| tool_calls := tool_calls st; files_written := files_written st;
       last_activity := last_activity st; session_id := v;
       last_event_time := last_event_time st; output_tokens := output_tokens st;
       chunks_since_heartbeat := chunks_since_heartbeat st |}).

Definition set_last_activity (s : string) : action unit :=
  update (fun st =>
    {| tool_calls := tool_calls st; files_written := files_written st;
       last_activity := s; session_id := session_id st;
       last_event_time := last_event_time st; output_tokens := output_tokens st;
       chunks_since_heartbeat := chunks_since_heartbeat st |}).

Definition set_chunks_since_heartbeat (n : Z) : action unit :=
  update (fun st =>
    {| tool_calls := tool_calls st; files_written := files_written st;
       last_activity := last_activity st; session_id := session_id st;
       last_event_time := last_event_time st; output_tokens := output_tokens st;
       chunks_since_heartbeat := n |}).

(** [state["tool_calls"] += 1] *)
Definition incr_tool_calls : action unit :=
  update (fun st =>
    {| tool_calls := tool_calls st + 1; files_written := files_written st;
       last_activity := last_activity st; session_id := session_id st;
       last_event_time := last_event_time st; output_tokens := output_tokens st;
       chunks_since_heartbeat := chunks_since_heartbeat st |}).

(** [state["files_written"].append(name)] *)
Definition append_file_written (name : string) : action unit :=
  update (fun st =>
    {| tool_calls := tool_calls st; files_written := List.app (files_written st) [name];
       last_activity := last_activity st; session_id := session_id st;
       last_event_time := last_event_time st; output_tokens := output_tokens st;
       chunks_since_heartbeat := chunks_since_heartbeat st |}).

(** [state["output_tokens"] += v]: nothing is stored when the sum raises. *)
Definition add_output_tokens (v : json) : action unit :=
  fun st =>
    match Py.num_add (output_tokens st) v with
    | Ok n =>
        ({| tool_calls := tool_calls st; files_written := files_written st;
            last_activity := last_activity st; session_id := session_id st;
            last_event_time := last_event_time st; output_tokens := n;
            chunks_since_heartbeat := chunks_since_heartbeat st |}, Ok tt)
    | Raise e => (st, Raise e)
    end.

(** [if "output_tokens" in usage: state["output_tokens"] += usage["output_tokens"]] *)
Definition accumulate_usage (usage : json) : action unit :=
  (has <- lift (Py.contains "output_tokens" usage) ;;
   if has : bool then
     v <- lift (Py.getitem usage "output_tokens") ;;
     add_output_tokens v
   else ret tt)%action.

Section Parser.

Context {rt : PyRuntime}.

(** The body of the loop over the content blocks of an assistant message,
    lines 254-272. *)
Definition tool_block (block : json) : action unit :=
  (btype <- lift (Py.get block "type" JNull) ;;
   if Py.eq_str btype "tool_use" then
     incr_tool_calls ;;
     tool_name <- lift (Py.get block "name" (JStr "?")) ;;
     tool_input <- lift (Py.get block "input" (JObj [])) ;;
     low <- lift (Py.lower tool_name) ;;
     if String.eqb low "write" || String.eqb low "edit" then
       fp <- lift (Py.get tool_input "file_path" (JStr "?")) ;;
       name <- lift (Py.basename fp) ;;
       append_file_written name ;;
       set_last_activity ("📝 " ++ Py.str tool_name ++ ": " ++ name)
     else if String.eqb low "read" then
       fp <- lift (Py.get tool_input "file_path" (JStr "?")) ;;
       name <- lift (Py.basename fp) ;;
       set_last_activity ("👁 read: " ++ name)
     else if String.eqb low "bash" then
       command <- lift (Py.get tool_input "command" (JStr "?")) ;;
       cmd <- lift (Py.slice_to 50 command) ;;
       set_last_activity ("💻 bash: " ++ Py.str cmd)
     else if Text.contains "search" low || Text.contains "grep" low then
       set_last_activity ("🔍 " ++ Py.str tool_name)
     else
       set_last_activity ("🔧 " ++ Py.str tool_name)
   else ret tt)%action.

(** The body of the [try] of [parse_stream_line], lines 205-275; [now] is
    what [time.time()] returns at line 209. *)
Definition parse_stream_event (line : string) (now : Z) : action unit :=
  (data <- lift (Json.loads line) ;;
   msg_type <- lift (Py.get data "type" (JStr "")) ;;
   set_last_event_time now ;;
   envelope <-
     (if Py.eq_str msg_type "stream_event" then
        inner <- lift (Py.get data "event" (JObj [])) ;;
        inner_type <- lift (Py.get inner "type" (JStr "")) ;;
        ret (inner, inner_type)
      else ret (data, msg_type)) ;;
   let '(inner, inner_type) := envelope in
   (if Py.eq_str msg_type "system" then
      subtype <- lift (Py.get data "subtype" JNull) ;;
      if Py.eq_str subtype "init" then
        sid <- lift (Py.get data "session_id" JNull) ;;
        if Py.truthy sid then set_session_id sid else ret tt
      else ret tt
    else ret tt) ;;
   (if Py.eq_str inner_type "content_block_start" then
      cb <- lift (Py.get inner "content_block" (JObj [])) ;;
      cbtype <- lift (Py.get cb "type" JNull) ;;
      if Py.eq_str cbtype "tool_use" then
        name <- lift (Py.get cb "name" (JStr "?")) ;;
        set_last_activity ("▶️ " ++ Py.str name ++ " starting...")
      else if Py.eq_str cbtype "thinking" then
        set_last_activity "🧠 Thinking..."
      else ret tt
    else if Py.eq_str inner_type "content_block_delta" then
      (fun st => set_chunks_since_heartbeat (chunks_since_heartbeat st + 1) st) ;;
      delta <- lift (Py.get inner "delta" (JObj [])) ;;
      dtype <- lift (Py.get delta "type" JNull) ;;
      if Py.eq_str dtype "thinking_delta" then
        set_last_activity "🧠 Thinking..."
      else if Py.eq_str dtype "text_delta" then
        set_last_activity "✍️ Writing..."
      else ret tt
    else if Py.eq_str inner_type "content_block_stop" then ret tt
    else if Py.eq_str inner_type "message_delta" then
      usage <- lift (Py.get inner "usage" (JObj [])) ;;
      accumulate_usage usage
    else ret tt) ;;
   has_message <-
     (if Py.eq_str msg_type "assistant" then lift (Py.contains "message" data)
      else ret false) ;;
   if has_message : bool then
     message <- lift (Py.get data "message" (JObj [])) ;;
     usage <- lift (Py.get message "usage" (JObj [])) ;;
     accumulate_usage usage ;;
     message <- lift (Py.getitem data "message") ;;
     content <- lift (Py.get message "content" (JArr [])) ;;
     blocks <- lift (Py.iter content) ;;
     for_each blocks tool_block
   else if Py.eq_str msg_type "result" then
     set_last_activity "✅ finishing..."
   else ret tt)%action.

(** [parse_stream_line], lines 202-278. *)
Definition parse_stream_line (line : string) (now : Z) : action unit :=
  except_decode_or_key (parse_stream_event line now).

End Parser.

(** ** The stream-reading thread *)

Module Whitespace.

Definition bytes (l : list N) : string :=
  fold_right (fun n s => String (ascii_of_N n) s) EmptyString l.

(** The UTF-8 encodings of the characters [str.isspace] accepts: U+0009 to
    U+000D, U+001C to U+0020, U+0085, U+00A0, U+1680, U+2000 to U+200A,
    U+2028, U+2029, U+202F, U+205F and U+3000. *)
Definition spaces : list string :=
  map bytes
    (List.app
       [[9]; [10]; [11]; [12]; [13]; [28]; [29]; [30]; [31]; [32];
        [194; 133]; [194; 160]; [225; 154; 128]]
       (List.app
          (map (fun k => [226; 128; 128 + k]) [0; 1; 2; 3; 4; 5; 6; 7; 8; 9; 10])
          [[226; 128; 168]; [226; 128; 169]; [226; 128; 175]; [226; 129; 159];
           [227; 128; 128]]))%N.

Fixpoint drop_any (pats : list string) (s : string) : option string :=
  match pats with
  | [] => None
  | p :: more =>
      match Json.strip_prefix p s with
      | Some rest => Some rest
      | None => drop_any more s
      end
  end.

Fixpoint lstrip_with (pats : list string) (fuel : nat) (s : string) : string :=
  match fuel with
  | O => s
  | S f =>
      match drop_any pats s with
      | Some rest => lstrip_with pats f rest
      | None => s
      end
  end.

Fixpoint rev_string (s : string) : string :=
  match s with
  | EmptyString => EmptyString
  | String c rest => rev_string rest ++ String c EmptyString
  end.

(** [s.strip()] *)
Definition strip (s : string) : string :=
  let l := lstrip_with spaces (String.length s) s in
  rev_string (lstrip_with (map rev_string spaces) (String.length l) (rev_string l)).

End Whitespace.

(** The reader thread of [main], lines 380-385, as far as it has got:
    the progress dict it shares with the main loop, [output_lines], and
    whether an exception that [parse_stream_line] let through has ended
    the thread. *)
Record Reader : Type := {
  rd_state : ProgressState;
  rd_output_lines : list string;
  rd_dead : bool
}.

Section ReaderThread.

Context {rt : PyRuntime}.

(** One turn of the loop [for line in proc.stdout]; [now] is the clock
    reading [parse_stream_line] would take. *)
Definition reader_step (r : Reader) (incoming : string * Z) : Reader :=
  let '(raw, now) := incoming in
  if rd_dead r then r
  else
    let line := Whitespace.strip raw in
    if String.eqb line EmptyString then r
    else
      let '(st, outcome) := parse_stream_line line now (rd_state r) in
      {| rd_state := st;
         rd_output_lines := List.app (rd_output_lines r) [line];
         rd_dead := raises outcome |}.

Definition reader (r : Reader) (incoming : list (string * Z)) : Reader :=
  fold_left reader_step incoming r.

End ReaderThread.

(** ** The supervisor and the result reconciler *)

(** The parsed command line, lines 282-291. *)
Record Args : Type := {
  task : string;
  project : string;
  session : option string;
  output : option string;
  timeout : Z;
  resume : option string;
  session_label : option string
}.

(** Truth value of an optional str: [None] and [""] are false. *)
Definition given (o : option string) : bool :=
  match o with
  | Some s => negb (String.eqb s EmptyString)
  | None => false
  end.

(** [extract_group_jid], lines 143-150. *)
Definition extract_group_jid (session_key : option string) : option string :=
  if negb (given session_key) then None
  else
    match session_key with
    | Some key => find (fun part => Text.contains "@g.us" part) (Text.split_on ":" key)
    | None => None
    end.

(** The messages the script composes. Each constructor stands for one
    template of the source and carries the values the template shows. *)
Inductive notice : Type :=
| Launch (label : option string) (project_dir limit : string)
         (resumed : option string) (pid : Z) (prompt : string)
| Heartbeat (elapsed : Z) (text : string)
| ResumeFailed (resumed : string)
| TimedOut (ran limit prompt project_dir : string) (calls size : Z)
           (preview output_file : string)
| Complete (prompt project_dir : string) (size : Z) (preview : string)
           (truncated : bool) (output_file : string)
| Failed (exit_code : Z) (prompt project_dir preview : string)
| Crashed (prompt : string) (error : exn)
| CrashedDirect (error : exn).

(** The calls [kill_process_graceful] makes on the subprocess. *)
Inductive proc_call : Type :=
| Terminate
| Wait (seconds : Z)
| Kill.

(** What the run does to the outside, in order. Of the lines printed to
    stderr only those that report an outcome are kept. *)
Inductive effect : Type :=
| WhatsApp (token target : string) (background : bool) (body : notice)
| SessionsSend (token session_key : string) (target : option string) (body : notice)
| Signal (call : proc_call)
| WriteText (path text : string)
| Register (id : json) (label : option string) (prompt project_dir : string)
           (openclaw_session : option string) (output_file status : string)
| LogTimeout
| LogResumeFailed
| LogDone (status : string) (exit_code size minutes : Z)
| LogCrash (error : exn).

(** How the subprocess answers the supervisor: its return code if it is
    gone within the wait that follows [terminate()], within the one that
    follows [kill()], and at the [poll()] of the crash handler; [None] when
    it is still there. *)
Record Subprocess : Type := {
  exit_after_terminate : option Z;
  exit_after_kill : option Z;
  exit_at_crash : option Z
}.

(** [proc.wait(timeout=...)] *)
Definition proc_wait (gone : option Z) : result Z :=
  match gone with
  | Some code => Ok code
  | None => Raise TimeoutExpired
  end.

(** [kill_process_graceful], lines 179-189: the calls made, and
    [proc.returncode] afterwards. The outer handler swallows the timeout of
    the second wait. *)
Definition kill_process_graceful (proc : Subprocess) (timeout_grace : Z)
  : list proc_call * option Z :=
  match proc_wait (exit_after_terminate proc) with
  | Ok code => ([Terminate; Wait timeout_grace], Some code)
  | Raise _ =>
      match proc_wait (exit_after_kill proc) with
      | Ok code => ([Terminate; Wait timeout_grace; Kill; Wait 5], Some code)
      | Raise _ => ([Terminate; Wait timeout_grace; Kill; Wait 5], None)
      end
  end.

(** One iteration of the main loop that found the subprocess running: the
    lines the reader thread handled since the previous iteration (each with
    the clock reading of its parse), and the clock readings of lines 393
    and 408. *)
Record Tick : Type := {
  tick_lines : list (string * Z);
  tick_clock : Z;
  tick_idle_clock : Z
}.

(** Everything a run takes from outside the script. *)
Record Run : Type := {
  run_get_token : option string;      (* [get_token()]; [None] when it raises *)
  run_stamp : string;                 (* the timestamp of line 296 *)
  run_pid : Z;
  run_state_clock : Z;                (* [time.time()] of line 369 *)
  run_start : Z;                      (* [time.time()] of line 374 *)
  run_ticks : list Tick;              (* the polls that find the subprocess running *)
  run_exit_code : Z;                  (* what the next poll returns *)
  run_proc : Subprocess;
  run_late_lines : list (string * Z); (* handled between the last poll and the join *)
  run_stderr : option string;         (* [proc.stderr.read()]; [None] when it raises *)
  run_done_clock : Z;                 (* [time.time()] of line 484 *)
  run_notify_clock : Z                (* [time.time()] of line 510 *)
}.

Definition second : Z := 1000000.

(** [int(later - earlier)] on two clock readings, in seconds. *)
Definition whole_seconds (earlier later : Z) : Z := Z.quot (later - earlier) second.

(** [send_whatsapp], lines 85-101; a failed request is swallowed. *)
Definition send_whatsapp (token group_jid : string) (text : notice) (bg_prefix : bool)
  : list effect :=
  [WhatsApp token group_jid bg_prefix text].

(** [notify_session], lines 104-140. *)
Definition notify_session (token session_key : string) (group_jid : option string)
           (message : notice) : list effect :=
  List.app
    (match group_jid with
     | Some jid =>
         if given group_jid then send_whatsapp token jid message true else []
     | None => []
     end)
    (if negb (String.eqb session_key EmptyString)
     then [SessionsSend token session_key group_jid message]
     else []).

Definition initial_state (clock : Z) : ProgressState :=
  {| tool_calls := 0; files_written := []; last_activity := EmptyString;
     session_id := JNull; last_event_time := clock; output_tokens := PInt 0;
     chunks_since_heartbeat := 0 |}.

(** The reader thread before its first line. *)
Definition fresh_reader (run : Run) : Reader :=
  {| rd_state := initial_state (run_state_clock run);
     rd_output_lines := []; rd_dead := false |}.

(** How the main loop ended. *)
Record LoopEnd : Type := {
  le_reader : Reader;
  le_timed_out : bool;
  le_returncode : option Z;
  le_trace : list effect
}.

Section Supervisor.

Context {rt : PyRuntime}.

(** The status line of a heartbeat, lines 405-429: [idle] is the clock
    difference of line 408. *)
Definition heartbeat_text (elapsed idle : Z) (st : ProgressState) : string :=
  let mins := elapsed / 60 in
  let status :=
    if idle <? 30 * second then "🟢"
    else if idle <? 120 * second then "🟡"
    else "🔴" in
  let chunks := chunks_since_heartbeat st in
  let parts :=
    List.app [status ++ " CC (" ++ Text.Z_to_string mins ++ "min)"]
      (List.app
         (if Py.num_pos (output_tokens st)
          then [format_tokens (output_tokens st) ++ " tok"] else [])
         (List.app
            (if 0 <? tool_calls st
             then [Text.Z_to_string (tool_calls st) ++ " calls"] else [])
            (if 120 * second <? idle then
               ["🧠 Thinking... (" ++ Text.Z_to_string (Z.quot idle second) ++ "s)"]
             else if (15 * second <? idle) && (chunks =? 0) then
               ["🧠 Thinking..."]
             else if negb (String.eqb (last_activity st) EmptyString) then
               [if 0 <? chunks then last_activity st ++ " ✍️" else last_activity st]
             else []))) in
  Text.join " | " parts.

(** The main loop, lines 391-432, over the polls still to come. *)
Fixpoint main_loop (args : Args) (group_jid token : option string) (run : Run)
         (ticks : list Tick) (r : Reader) (last_heartbeat : Z) (trace : list effect)
  : LoopEnd :=
  match ticks with
  | [] =>
      {| le_reader := r; le_timed_out := false;
         le_returncode := Some (run_exit_code run); le_trace := trace |}
  | tk :: later =>
      let r := reader r (tick_lines tk) in
      let elapsed := whole_seconds (run_start run) (tick_clock tk) in
      if timeout args <=? elapsed then
        let '(calls, code) := kill_process_graceful (run_proc run) 10 in
        {| le_reader := r; le_timed_out := true; le_returncode := code;
           le_trace := List.app trace (LogTimeout :: map Signal calls) |}
      else
        match group_jid, token with
        | Some jid, Some tok =>
            if (60 <=? elapsed - last_heartbeat) && given group_jid && given token then
              let st := rd_state r in
              let idle := tick_idle_clock tk - last_event_time st in
              let text := heartbeat_text elapsed idle st in
              let '(st', _) := set_chunks_since_heartbeat 0 st in
              let r' := {| rd_state := st'; rd_output_lines := rd_output_lines r;
                           rd_dead := rd_dead r |} in
              main_loop args group_jid token run later r' elapsed
                (List.app trace (send_whatsapp tok jid (Heartbeat elapsed text) true))
            else main_loop args group_jid token run later r last_heartbeat trace
        | _, _ => main_loop args group_jid token run later r last_heartbeat trace
        end
  end.

End Supervisor.

(** *** Result extraction, lines 452-475 *)

(** The first loop, lines 454-461: [final_text] when it ends. A line that
    does not decode is skipped; the loop stops at the first event of type
    [result]. *)
Fixpoint first_result (output_lines : list string) : result json :=
  match output_lines with
  | [] => Ok (JStr EmptyString)
  | line :: later =>
      match Json.loads line with
      | Raise JSONDecodeError => first_result later
      | Raise KeyError => first_result later
      | Raise e => Raise e
      | Ok data =>
          match Py.get data "type" JNull with
          | Raise e => Raise e
          | Ok ty =>
              if Py.eq_str ty "result" then Py.get data "result" (JStr EmptyString)
              else first_result later
          end
      end
  end.

(** [final_text += piece] for a str [piece]: a str is extended, a list
    takes the characters of the piece, anything else raises. *)
Definition text_iadd (final_text : json) (piece : string) : result json :=
  match final_text with
  | JStr s => Ok (JStr (s ++ piece))
  | JArr elems => Ok (JArr (List.app elems (map JStr (Text.chars piece))))
  | _ => Raise TypeError
  end.

(** [block.get("text", "") + "\n"] *)
Definition text_line (block : json) : result string :=
  match Py.get block "text" (JStr EmptyString) with
  | Ok (JStr s) => Ok (s ++ String (ascii_of_N 10) EmptyString)
  | Ok _ => Raise TypeError
  | Raise e => Raise e
  end.

(** The loop over the content blocks of one assistant event, lines 468-470. *)
Fixpoint add_text_blocks (blocks : list json) (final_text : json) : result json :=
  match blocks with
  | [] => Ok final_text
  | block :: later =>
      match Py.get block "type" JNull with
      | Raise e => Raise e
      | Ok ty =>
          if Py.eq_str ty "text" then
            match text_line block with
            | Raise e => Raise e
            | Ok piece =>
                match text_iadd final_text piece with
                | Raise e => Raise e
                | Ok grown => add_text_blocks later grown
                end
            end
          else add_text_blocks later final_text
      end
  end.

(** The body of the [try] of lines 466-470 for one decoded line. *)
Definition add_assistant_text (data : json) (final_text : json) : result json :=
  (ty <- Py.get data "type" JNull ;;
   if Py.eq_str ty "assistant" then
     message <- Py.get data "message" (JObj []) ;;
     content <- Py.get message "content" (JArr []) ;;
     blocks <- Py.iter content ;;
     add_text_blocks blocks final_text
   else Ok final_text)%result.

(** The second loop, lines 464-472. A [KeyError] or a decode error leaves
    the loop body; what the body added before is kept, but no operation of
    the body raises either once the line has decoded. *)
Fixpoint assistant_text (output_lines : list string) (final_text : json) : result json :=
  match output_lines with
  | [] => Ok final_text
  | line :: later =>
      match Json.loads line with
      | Raise JSONDecodeError => assistant_text later final_text
      | Raise KeyError => assistant_text later final_text
      | Raise e => Raise e
      | Ok data =>
          match add_assistant_text data final_text with
          | Raise e => Raise e
          | Ok grown => assistant_text later grown
          end
      end
  end.

Definition no_output : string := "(no output captured)".

(** Lines 452-475: the three tiers. *)
Definition extract_final_text (output_lines : list string) (stderr_output : string)
  : result json :=
  (final_text <- first_result output_lines ;;
   final_text <-
     (if negb (Py.truthy final_text) then assistant_text output_lines final_text
      else Ok final_text) ;;
   if negb (Py.truthy final_text) then
     Ok (JStr (if negb (String.eqb stderr_output EmptyString)
               then stderr_output else no_output))
   else Ok final_text)%result.

(** *** The run *)

Definition resume_marker : string := "No conversation found".

(** The glyph of line 486 and the registry status of line 492. *)
Definition status_glyph (timed_out : bool) (exit_code : Z) : string :=
  if timed_out then "⏰ TIMEOUT" else if exit_code =? 0 then "✅" else "❌".

Definition session_status (timed_out : bool) (exit_code : Z) : string :=
  if timed_out then "timeout" else if exit_code =? 0 then "completed" else "failed".

Section Main.

Context {rt : PyRuntime}.

(** Lines 477-538, once [final_text] is known; [Path.write_text] refuses
    anything but a str. *)
Definition report (args : Args) (run : Run) (group_jid token : option string)
           (output_file : string) (le : LoopEnd) (final_text : json)
  : list effect * result unit :=
  match final_text with
  | JStr out =>
      let st := rd_state (le_reader le) in
      let timed_out := le_timed_out le in
      let exit_code := match le_returncode le with Some c => c | None => -1 end in
      let output_size := Text.char_count out in
      let preview := Text.take_chars 2000 out in
      let elapsed_min := Z.quot (run_done_clock run - run_start run) (60 * second) in
      let registered :=
        if Py.truthy (session_id st) then
          [Register (session_id st) (session_label args) (task args) (project args)
                    (session args) output_file (session_status timed_out exit_code)]
        else [] in
      let notified :=
        match session args, token with
        | Some key, Some tok =>
            if given (session args) && given token then
              let msg :=
                if timed_out then
                  TimedOut (fmt_duration (whole_seconds (run_start run) (run_notify_clock run)))
                           (fmt_duration (timeout args))
                           (Text.take_chars 200 (task args)) (project args)
                           (tool_calls st) output_size preview output_file
                else if exit_code =? 0 then
                  Complete (Text.take_chars 200 (task args)) (project args) output_size
                           preview (2000 <? output_size) output_file
                else
                  Failed exit_code (Text.take_chars 200 (task args)) (project args) preview in
              notify_session tok key group_jid msg
            else []
        | _, _ => []
        end in
      (List.app
         [WriteText output_file out;
          LogDone (status_glyph timed_out exit_code) exit_code output_size elapsed_min]
         (List.app registered notified),
       Ok tt)
  | _ => ([], Raise TypeError)
  end.

(** The handler of lines 540-561 for an exception [e] of the [try] body,
    raised when the subprocess has return code [returncode]. *)
Definition crash_handler (args : Args) (run : Run) (group_jid token : option string)
           (returncode : option Z) (e : exn) : list effect :=
  let still_running :=
    match returncode with
    | Some _ => false
    | None => match exit_at_crash (run_proc run) with Some _ => false | None => true end
    end in
  List.app [LogCrash e]
    (List.app
       (if still_running
        then map Signal (fst (kill_process_graceful (run_proc run) 10)) else [])
       (List.app
          (match session args, token with
           | Some key, Some tok =>
               if given (session args) && given token
               then notify_session tok key group_jid
                      (Crashed (Text.take_chars 200 (task args)) e)
               else []
           | _, _ => []
           end)
          (match group_jid, token with
           | Some jid, Some tok =>
               if given group_jid && given token && negb (given (session args))
               then send_whatsapp tok jid (CrashedDirect e) true
               else []
           | _, _ => []
           end))).

(** [stderr_output] of lines 435-439. *)
Definition stderr_text (run : Run) : string :=
  match run_stderr run with Some text => text | None => EmptyString end.

(** Lines 434-561: the join with the reader thread has happened and the
    loop has ended as [le]; the resume check, the extraction, the report,
    and the crash handler for what they raise. *)
Definition reconcile (args : Args) (run : Run) (group_jid token : option string)
           (output_file : string) (le : LoopEnd) : list effect :=
  let stderr_output := stderr_text run in
  if given (resume args) && negb (String.eqb stderr_output EmptyString)
     && Text.contains resume_marker stderr_output
  then
    LogResumeFailed ::
    match session args, token, resume args with
    | Some key, Some tok, Some id =>
        if given (session args) && given token && given group_jid
        then notify_session tok key group_jid (ResumeFailed id)
        else []
    | _, _, _ => []
    end
  else
    match extract_final_text (rd_output_lines (le_reader le)) stderr_output with
    | Raise e => crash_handler args run group_jid token (le_returncode le) e
    | Ok final_text =>
        match report args run group_jid token output_file le final_text with
        | (done, Ok _) => done
        | (done, Raise e) =>
            List.app done (crash_handler args run group_jid token (le_returncode le) e)
        end
    end.

(** [token] of lines 303-306. *)
Definition load_token (args : Args) (run : Run) : option string :=
  if given (session args) then run_get_token run else None.

(** [output_file] of line 297. *)
Definition output_path (args : Args) (run : Run) : string :=
  if given (output args) then
    match output args with Some path => path | None => EmptyString end
  else "/tmp/cc-" ++ run_stamp run ++ ".txt".

(** Lines 327-338: the launch message. *)
Definition launch (args : Args) (run : Run) : list effect :=
  match extract_group_jid (session args), load_token args run with
  | Some jid, Some tok =>
      if given (extract_group_jid (session args)) && given (load_token args run) then
        send_whatsapp tok jid
          (Launch (if given (session_label args) then session_label args else None)
                  (project args) (fmt_duration (timeout args))
                  (if given (resume args)
                   then option_map (Text.take_chars 12) (resume args) else None)
                  (run_pid run) (task args))
          true
      else []
  | _, _ => []
  end.

(** Lines 298-434: from the start to the join with the reader thread, which
    by then has also handled the late lines. *)
Definition supervise (args : Args) (run : Run) : LoopEnd :=
  let le :=
    main_loop args (extract_group_jid (session args)) (load_token args run) run
              (run_ticks run) (fresh_reader run) 0 (launch args run) in
  {| le_reader := reader (le_reader le) (run_late_lines run);
     le_timed_out := le_timed_out le; le_returncode := le_returncode le;
     le_trace := le_trace le |}.

(** [main], lines 281-566, from the parsed arguments on: everything the run
    does to the outside. The PID file, the creation of the project
    directory and of its git repository, the start of the subprocess and
    the informational lines printed on the way are left out, and taken not
    to raise. *)
Definition main (args : Args) (run : Run) : list effect :=
  let le := supervise args run in
  List.app (le_trace le)
    (reconcile args run (extract_group_jid (session args)) (load_token args run)
               (output_path args run) le).

End Main.

(** ** Vocabulary of the properties *)

(** A runtime to evaluate examples with. None of the examples below shows a
    float or quotes a string, so the two renderings are never consulted. *)
Definition example_runtime : PyRuntime :=
  {| float_repr := fun _ => "<float>";
     str_repr := fun s => "'" ++ s ++ "'";
     slices_hashable := true |}.

(** *** Token formatting *)




Definition Z_range (from : Z) (count : nat) : list Z :=
  map (fun k => from + Z.of_nat k) (seq 0 count).

(** *** Event streams *)

(** Folding a sequence of lines, each with the clock reading of its parse,
    into a progress state. *)
Definition feed {rt : PyRuntime} (st : ProgressState) (events : list (string * Z))
  : ProgressState :=
  fold_left (fun acc ev => fst (parse_stream_line (fst ev) (snd ev) acc)) events st.

(** Every [output_tokens] field of a document holds a non-negative int. *)
Fixpoint deltas_nonneg (v : json) : bool :=
  match v with
  | JArr elems => forallb deltas_nonneg elems
  | JObj items =>
      forallb (fun kv =>
                 let '(k, x) := kv in
                 (if String.eqb k "output_tokens"
                  then match x with JInt z => 0 <=? z | _ => false end
                  else true)
                 && deltas_nonneg x)
              items
  | _ => true
  end.

Definition line_deltas_nonneg (line : string) : bool :=
  match Json.loads line with
  | Ok v => deltas_nonneg v
  | Raise _ => true
  end.

(** The counts of a state are those of a fresh or later one: a tool count
    of zero or more, and an int token count of zero or more. *)
Definition counts_nonneg (st : ProgressState) : Prop :=
  0 <= tool_calls st /\ exists n, output_tokens st = PInt n /\ 0 <= n.


(** A step relation [R] on progress states holds across an action, and what
    the action returns satisfies [Q]. *)
Definition yields (R : ProgressState -> ProgressState -> Prop) {A : Type}
           (m : action A) (Q : A -> Prop) : Prop :=
  forall st, R st (fst (m st)) /\ forall a, snd (m st) = Ok a -> Q a.

(** The timestamp after a step is the old one or the reading [now]. *)
Definition stamped (now : Z) (st st' : ProgressState) : Prop :=
  last_event_time st' = last_event_time st \/ last_event_time st' = now.

(** The tool count does not drop. *)
Definition calls_grow (st st' : ProgressState) : Prop :=
  tool_calls st <= tool_calls st'.

(** An int token count of zero or more stays so and does not drop. *)
Definition tokens_grow (st st' : ProgressState) : Prop :=
  forall n, output_tokens st = PInt n -> 0 <= n ->
            exists n', output_tokens st' = PInt n' /\ n <= n'.

(** The clock readings of a sequence of events never go back, starting
    from [t]. *)
Fixpoint clock_ordered (t : Z) (events : list (string * Z)) : Prop :=
  match events with
  | [] => True
  | ev :: later => t <= snd ev /\ clock_ordered (snd ev) later
  end.

(** *** Traces *)

(** The elapsed seconds the main loop computes at each poll. *)
Definition elapsed_readings (run : Run) : list Z :=
  map (fun tk => whole_seconds (run_start run) (tick_clock tk)) (run_ticks run).

(** Some poll finds the subprocess running with the timeout used up. *)
Definition timeout_reached (args : Args) (run : Run) : bool :=
  existsb (fun e => timeout args <=? e) (elapsed_readings run).


(** The elapsed times at which a heartbeat is due: the readings, in order,
    that are 60 seconds or more past the previous heartbeat (or the start),
    up to the reading that is out of time. *)
Fixpoint schedule (limit : Z) (readings : list Z) (last : Z) : list Z :=
  match readings with
  | [] => []
  | e :: later =>
      if limit <=? e then []
      else if 60 <=? e - last then e :: schedule limit later e
      else schedule limit later last
  end.

(** The elapsed times of the heartbeats of a trace. *)
Definition heartbeats (trace : list effect) : list Z :=
  flat_map (fun e =>
              match e with
              | WhatsApp _ _ _ (Heartbeat elapsed _) => [elapsed]
              | _ => []
              end) trace.

(** The calls made on the subprocess. *)
Definition signals (trace : list effect) : list proc_call :=
  flat_map (fun e => match e with Signal c => [c] | _ => [] end) trace.

(** The outcomes a run can report (section 3 of the specification, and the
    resume failure of section 4.5). *)
Inductive verdict : Type :=
| TimedOutRun
| Succeeded
| FailedRun
| CrashedRun
| ResumeFailure.

Definition verdict_of_notice (body : notice) : list verdict :=
  match body with
  | Launch _ _ _ _ _ _ => []
  | Heartbeat _ _ => []
  | ResumeFailed _ => [ResumeFailure]
  | TimedOut _ _ _ _ _ _ _ _ => [TimedOutRun]
  | Complete _ _ _ _ _ _ => [Succeeded]
  | Failed _ _ _ _ => [FailedRun]
  | Crashed _ _ => [CrashedRun]
  | CrashedDirect _ => [CrashedRun]
  end.

(** The outcome each effect of a trace reports, if it reports one: the
    status line, the registry entry and the terminal messages. *)
Definition verdicts (trace : list effect) : list verdict :=
  flat_map (fun e =>
              match e with
              | WhatsApp _ _ _ body => verdict_of_notice body
              | SessionsSend _ _ _ body => verdict_of_notice body
              | Register _ _ _ _ _ _ status =>
                  if String.eqb status "timeout" then [TimedOutRun]
                  else if String.eqb status "completed" then [Succeeded]
                  else [FailedRun]
              | LogDone glyph _ _ _ =>
                  if String.eqb glyph "⏰ TIMEOUT" then [TimedOutRun]
                  else if String.eqb glyph "✅" then [Succeeded]
                  else [FailedRun]
              | LogResumeFailed => [ResumeFailure]
              | LogCrash _ => [CrashedRun]
              | Signal _ => []
              | WriteText _ _ => []
              | LogTimeout => []
              end) trace.

(** The registry writes and the result files of a trace. *)
Definition registry_writes (trace : list effect) : list effect :=
  filter (fun e => match e with Register _ _ _ _ _ _ _ => true | _ => false end) trace.

Definition result_files (trace : list effect) : list effect :=
  filter (fun e => match e with WriteText _ _ => true | _ => false end) trace.

(** The resume-failure messages sent to the group, and those sent to the
    session. *)
Definition resume_failure_messages (trace : list effect) : list effect :=
  filter (fun e => match e with WhatsApp _ _ _ (ResumeFailed _) => true | _ => false end)
         trace.

Definition resume_failure_wakeups (trace : list effect) : list effect :=
  filter (fun e => match e with SessionsSend _ _ _ (ResumeFailed _) => true | _ => false end)
         trace.

(** The resume check of line 442. *)
Definition resume_failed (args : Args) (run : Run) : bool :=
  given (resume args) && negb (String.eqb (stderr_text run) EmptyString)
  && Text.contains resume_marker (stderr_text run).

(** [output_lines] when the extraction starts. *)
Definition captured {rt : PyRuntime} (args : Args) (run : Run) : list string :=
  rd_output_lines (le_reader (supervise args run)).


(** What the loop may put on the trace. *)
Definition loop_effect (e : effect) : bool :=
  match e with
  | WhatsApp _ _ _ (Launch _ _ _ _ _ _) => true
  | WhatsApp _ _ _ (Heartbeat _ _) => true
  | Signal _ => true
  | LogTimeout => true
  | _ => false
  end.

(** *** Captured streams *)

Definition newline : string := String (ascii_of_N 10) EmptyString.

(** The first loop of the extraction passes over a line: it does not
    decode, or it decodes to an object that is not a result event. *)
Definition passed_over (line : string) : Prop :=
  Json.loads line = Raise JSONDecodeError \/
  exists items, Json.loads line = Ok (JObj items) /\
                Py.eq_str (match Py.lookup items "type" with
                           | Some ty => ty
                           | None => JNull
                           end) "result" = false.

(** A terminal-result event with result field [text]. *)
Definition result_event (line : string) (text : json) : Prop :=
  exists items, Json.loads line = Ok (JObj items) /\
                Py.lookup items "type" = Some (JStr "result") /\
                Py.lookup items "result" = Some text.

(** The text fragments a content block carries: the text of a text block
    (empty when the field is missing), nothing for another object. *)
Inductive block_carries : json -> list string -> Prop :=
| carries_text items s :
    Py.eq_str (match Py.lookup items "type" with Some ty => ty | None => JNull end)
              "text" = true ->
    match Py.lookup items "text" with Some v => v | None => JStr EmptyString end = JStr s ->
    block_carries (JObj items) [s]
| carries_other items :
    Py.eq_str (match Py.lookup items "type" with Some ty => ty | None => JNull end)
              "text" = false ->
    block_carries (JObj items) [].

(** The text fragments a captured line carries for the second loop: those
    of the content blocks of an assistant event whose message is an object
    with a list (or no) content; nothing for a line that does not decode or
    an object of another type. *)
Inductive line_carries : string -> list string -> Prop :=
| carries_undecodable line :
    Json.loads line = Raise JSONDecodeError -> line_carries line []
| carries_not_assistant line items :
    Json.loads line = Ok (JObj items) ->
    Py.eq_str (match Py.lookup items "type" with Some ty => ty | None => JNull end)
              "assistant" = false ->
    line_carries line []
| carries_assistant line items message blocks fragments :
    Json.loads line = Ok (JObj items) ->
    Py.lookup items "type" = Some (JStr "assistant") ->
    match Py.lookup items "message" with Some m => m | None => JObj [] end = JObj message ->
    match Py.lookup message "content" with Some c => c | None => JArr [] end = JArr blocks ->
    Forall2 block_carries blocks fragments ->
    line_carries line (List.concat fragments).

(** Each fragment followed by a newline, in order. *)
Fixpoint fragment_lines (fragments : list string) : string :=
  match fragments with
  | [] => EmptyString
  | f :: later => f ++ newline ++ fragment_lines later
  end.

(** A heartbeat message. *)
Definition is_beat (e : effect) : Prop :=
  exists tok jid elapsed text, e = WhatsApp tok jid true (Heartbeat elapsed text).

(** *** Example runs *)

(** A subprocess that exits on [SIGTERM]. *)
Definition obedient : Subprocess :=
  {| exit_after_terminate := Some (-15); exit_after_kill := Some (-9);
     exit_at_crash := None |}.

(** A poll [seconds] after the start, with nothing read since the last. *)
Definition poll_at (seconds : Z) : Tick :=
  {| tick_lines := []; tick_clock := seconds * second;
     tick_idle_clock := seconds * second |}.

(** A run polled every 5 seconds, [polls] times, whose subprocess then
    exits with code 0 after printing [lines] and [err]. *)
Definition steady_run (polls : nat) (lines : list string) (err : string) : Run :=
  {| run_get_token := Some "secret";
     run_stamp := "20260101-120000";
     run_pid := 4242;
     run_state_clock := 0;
     run_start := 0;
     run_ticks := map (fun k => poll_at (5 * k)) (Z_range 1 polls);
     run_exit_code := 0;
     run_proc := obedient;
     run_late_lines := map (fun line => (line, 5 * Z.of_nat polls * second)) lines;
     run_stderr := Some err;
     run_done_clock := 5 * Z.of_nat polls * second;
     run_notify_clock := 5 * Z.of_nat polls * second |}.

(** A session key with a group component, and one without. *)
Definition group_session : string := "agent:main:whatsapp:group:120363@g.us".
Definition plain_session : string := "agent:main:main".

Definition example_args (key : option string) (limit : Z) (resumed : option string)
  : Args :=
  {| task := "Build X"; project := "/tmp/x"; session := key; output := None;
     timeout := limit; resume := resumed; session_label := None |}.

Definition not_found : string := "No conversation found with session ID: 0a1b".

(** Stream lines of the examples. *)
Definition result_line (text : string) : string :=
  Json.text "{'type':'result','result':'" ++ text ++ Json.text "'}".

Definition assistant_line (text : string) : string :=
  Json.text "{'type':'assistant','message':{'content':[{'type':'text','text':'"
  ++ text ++ Json.text "'}]}}".

Definition tool_line : string :=
  Json.text ("{'type':'assistant','message':{'usage':{'output_tokens':12},"
             ++ "'content':[{'type':'tool_use','name':'Read','input':{'file_path':'/a/b.py'}}]}}").

Definition negative_delta_line : string :=
  Json.text "{'type':'message_delta','usage':{'output_tokens':-5}}".

(** *** Vocabulary of the further properties *)

(** The requests a trace sends to the gateway. *)
Definition requests (trace : list effect) : list effect :=
  filter (fun e =>
            match e with
            | WhatsApp _ _ _ _ => true
            | SessionsSend _ _ _ _ => true
            | _ => false
            end) trace.

(** The messages that wake the calling session. *)
Definition wakeups (trace : list effect) : list effect :=
  filter (fun e => match e with SessionsSend _ _ _ _ => true | _ => false end) trace.

(** The direct crash messages of lines 558-561. *)
Definition direct_crash_messages (trace : list effect) : list effect :=
  filter (fun e =>
            match e with
            | WhatsApp _ _ _ (CrashedDirect _) => true
            | _ => false
            end) trace.

(** Each time is at least [gap] after the one before, the first after [last]. *)
Fixpoint spaced (gap last : Z) (times : list Z) : Prop :=
  match times with
  | [] => True
  | t :: later => last + gap <= t /\ spaced gap t later
  end.

(** The seconds a sequence of calls on the subprocess may wait. *)
Fixpoint total_wait (calls : list proc_call) : Z :=
  match calls with
  | [] => 0
  | Wait seconds :: later => seconds + total_wait later
  | _ :: later => total_wait later
  end.

(** The event types [parse_stream_line] does something for, besides
    refreshing the timestamp. *)
Definition handled_type (ty : json) : bool :=
  Py.eq_str ty "stream_event" || Py.eq_str ty "system"
  || Py.eq_str ty "content_block_start" || Py.eq_str ty "content_block_delta"
  || Py.eq_str ty "message_delta" || Py.eq_str ty "assistant"
  || Py.eq_str ty "result".

(** The files recorded in [st'] are those of [st] and then some. *)
Definition files_extend (st st' : ProgressState) : Prop :=
  exists new, files_written st' = (files_written st ++ new)%list.

(** A timestamp equal to the reading [now] stays so. *)
Definition keeps_stamp (now : Z) (st st' : ProgressState) : Prop :=
  last_event_time st = now -> last_event_time st' = now.

(** The excerpts a message shows are within their limits: 200 characters
    of the task, 2000 of the result. *)
Definition excerpts_bounded (body : notice) : bool :=
  match body with
  | TimedOut _ _ prompt _ _ _ preview _ =>
      (Text.char_count prompt <=? 200) && (Text.char_count preview <=? 2000)
  | Complete prompt _ _ preview _ _ =>
      (Text.char_count prompt <=? 200) && (Text.char_count preview <=? 2000)
  | Failed _ prompt _ preview =>
      (Text.char_count prompt <=? 200) && (Text.char_count preview <=? 2000)
  | Crashed prompt _ => Text.char_count prompt <=? 200
  | _ => true
  end.

Definition effect_bounded (e : effect) : bool :=
  match e with
  | WhatsApp _ _ _ body => excerpts_bounded body
  | SessionsSend _ _ _ body => excerpts_bounded body
  | _ => true
  end.

(** A decoded value that is not an object. *)
Definition not_object (v : json) : bool :=
  match v with
  | JObj _ => false
  | _ => true
  end.

(** A system event of subtype init carrying [id]. *)
Definition init_line (id : string) : string :=
  Json.text "{'type':'system','subtype':'init','session_id':'" ++ id ++ Json.text "'}".

(** No character of [needle] is [sep]. *)
Fixpoint avoids (sep : ascii) (needle : string) : bool :=
  match needle with
  | EmptyString => true
  | String c rest => negb (Ascii.eqb c sep) && avoids sep rest
  end.

(** * Properties *)

(** ** Steps of the state-and-exception actions *)

Section Yields.

Context {rt : PyRuntime}.
Variable R : ProgressState -> ProgressState -> Prop.
Variable G : json -> Prop.
Hypothesis R_refl : forall st, R st st.
Hypothesis R_trans : forall a b c, R a b -> R b c -> R a c.

Lemma yields_ret {A : Type} (a : A) (Q : A -> Prop) : Q a -> yields R (ret a) Q.
Proof.
  intros Ha st; split; [apply R_refl | cbn; intros b Hb; inversion Hb; subst; exact Ha].
Qed.

Lemma yields_lift {A : Type} (r : result A) (Q : A -> Prop) :
  (forall a, r = Ok a -> Q a) -> yields R (lift r) Q.
Proof.
  intros Hr st; split; [apply R_refl | cbn; auto].
Qed.

Lemma yields_bind {A B : Type} (m : action A) (k : A -> action B)
      (P : A -> Prop) (Q : B -> Prop) :
  yields R m P -> (forall a, P a -> yields R (k a) Q) -> yields R (abind m k) Q.
Proof.
  intros Hm Hk st. unfold abind.
  destruct (Hm st) as [Hst Hres].
  destruct (m st) as [st' [a | e]]; cbn in *.
  - destruct (Hk a (Hres a eq_refl) st') as [Hst' Hres'].
    split; [eapply R_trans; eauto | assumption].
  - split; [assumption | discriminate].
Qed.

Lemma yields_weaken {A : Type} (m : action A) (P Q : A -> Prop) :
  yields R m P -> (forall a, P a -> Q a) -> yields R m Q.
Proof.
  intros Hm HPQ st. destruct (Hm st); split; auto.
Qed.

Lemma yields_update (f : ProgressState -> ProgressState) (Q : unit -> Prop) :
  (forall st, R st (f st)) -> Q tt -> yields R (update f) Q.
Proof.
  intros Hf HQ st; split; [apply Hf | cbn; intros [] _; exact HQ].
Qed.

Lemma yields_for_each {A : Type} (xs : list A) (body : A -> action unit) (P : A -> Prop) :
  Forall P xs -> (forall x, P x -> yields R (body x) (fun _ => True)) ->
  yields R (for_each xs body) (fun _ => True).
Proof.
  intros Hxs Hbody. induction Hxs as [| x xs Hx _ IH]; cbn.
  - now apply yields_ret.
  - eapply yields_bind; [apply Hbody, Hx | intros _ _; exact IH].
Qed.

Lemma yields_except (m : action unit) :
  yields R m (fun _ => True) -> yields R (except_decode_or_key m) (fun _ => True).
Proof.
  intros Hm st. unfold except_decode_or_key.
  destruct (Hm st) as [Hst _].
  destruct (m st) as [st' [a | e]]; cbn in *; [now split |].
  destruct e; cbn; now split.
Qed.


(** The parser under assumptions on its primitive updates. *)

Hypothesis G_get : forall v k d x, G v -> G d -> Py.get v k d = Ok x -> G x.
Hypothesis G_getitem : forall v k x, G v -> Py.getitem v k = Ok x -> G x.
Hypothesis G_iter : forall v xs, G v -> Py.iter v = Ok xs -> Forall G xs.
Hypothesis G_null : G JNull.
Hypothesis G_str : forall s, G (JStr s).
Hypothesis G_empty_obj : G (JObj []).
Hypothesis G_empty_arr : G (JArr []).

Variable now : Z.
Hypothesis R_time : forall st, R st (fst (set_last_event_time now st)).
Hypothesis R_session : forall v st, R st (fst (set_session_id v st)).
Hypothesis R_activity : forall s st, R st (fst (set_last_activity s st)).
Hypothesis R_chunks : forall n st, R st (fst (set_chunks_since_heartbeat n st)).
Hypothesis R_calls : forall st, R st (fst (incr_tool_calls st)).
Hypothesis R_file : forall s st, R st (fst (append_file_written s st)).
Hypothesis R_usage : forall usage, G usage -> yields R (accumulate_usage usage) (fun _ => True).

Lemma yields_get (v : json) (k : string) (d : json) :
  G v -> G d -> yields R (lift (Py.get v k d)) G.
Proof. intros Hv Hd. apply yields_lift. intros x Hx. exact (G_get v k d x Hv Hd Hx). Qed.

Lemma yields_any {A : Type} (r : result A) : yields R (lift r) (fun _ => True).
Proof. now apply yields_lift. Qed.

Lemma yields_unit (m : action unit) :
  (forall st, R st (fst (m st))) -> yields R m (fun _ => True).
Proof. intros Hm st; split; [apply Hm | trivial]. Qed.

Ltac yield :=
  repeat match goal with
  | |- yields R (abind (lift (Py.get _ _ _)) _) _ =>
      eapply yields_bind; [apply yields_get; auto | intros ? ?]
  | |- yields R (abind (lift (Py.getitem _ _)) _) _ =>
      eapply yields_bind;
      [apply yields_lift; let Hx := fresh in intros ? Hx; eapply G_getitem in Hx; [exact Hx | assumption] | intros ? ?]
  | |- yields R (abind (lift (Py.iter _)) _) _ =>
      eapply yields_bind;
      [apply yields_lift; let Hx := fresh in intros ? Hx; eapply G_iter in Hx; [exact Hx | assumption] | intros ? ?]
  | |- yields R (abind (lift _) _) _ =>
      eapply yields_bind; [apply yields_any | intros ? _]
  | |- yields R (abind _ _) _ =>
      eapply yields_bind; [ | intros ? _]
  | |- yields R (if ?b then _ else _) _ => destruct b
  | |- yields R (ret _) _ => now apply yields_ret
  | |- yields R (lift _) (fun _ => True) => apply yields_any
  | |- yields R (set_last_activity _) _ => apply yields_unit, R_activity
  | |- yields R (set_session_id _) _ => apply yields_unit, R_session
  | |- yields R (set_last_event_time _) _ => apply yields_unit, R_time
  | |- yields R incr_tool_calls _ => apply yields_unit, R_calls
  | |- yields R (append_file_written _) _ => apply yields_unit, R_file
  | |- yields R (accumulate_usage _) _ => apply R_usage; auto
  end.

Lemma yields_tool_block (block : json) :
  G block -> yields R (tool_block block) (fun _ => True).
Proof.
  intros Hb. unfold tool_block. yield.
Qed.

Lemma yields_parse_stream_event (line : string) :
  (forall v, Json.loads line = Ok v -> G v) ->
  yields R (parse_stream_event line now) (fun _ => True).
Proof.
  intros Hline. unfold parse_stream_event.
  eapply yields_bind; [apply yields_lift, Hline | intros data Hdata].
  eapply yields_bind; [apply yields_get; auto | intros msg_type Hty].
  eapply yields_bind; [apply yields_unit, R_time | intros _ _].
  eapply yields_bind with (P := fun p => G (fst p) /\ G (snd p)).
  { destruct (Py.eq_str msg_type "stream_event").
    - eapply yields_bind; [apply yields_get; auto | intros inner Hinner].
      eapply yields_bind; [apply yields_get; auto | intros inner_type Hit].
      now apply yields_ret.
    - now apply yields_ret. }
  intros [inner inner_type] [Hinner Hit]; cbn in Hinner, Hit.
  eapply yields_bind with (P := fun _ => True); [yield | intros _ _].
  eapply yields_bind with (P := fun _ => True).
  { yield. apply yields_unit. intros st. apply R_chunks. }
  intros _ _.
  eapply yields_bind with (P := fun _ => True); [yield | intros has_message _].
  destruct has_message; yield.
  eapply yields_for_each; [eassumption | apply yields_tool_block].
Qed.

Lemma yields_parse_stream_line (line : string) :
  (forall v, Json.loads line = Ok v -> G v) ->
  yields R (parse_stream_line line now) (fun _ => True).
Proof.
  intros Hline. apply yields_except, yields_parse_stream_event, Hline.
Qed.

End Yields.

(** ** Token formatting *)

Section TokenFormat.

Context {rt : PyRuntime}.




End TokenFormat.


(** ** The event parser *)

Section ParserInvariants.

Context {rt : PyRuntime}.

Lemma accumulate_usage_frame (usage : json) (st : ProgressState) :
  tool_calls (fst (accumulate_usage usage st)) = tool_calls st /\
  last_event_time (fst (accumulate_usage usage st)) = last_event_time st.
Proof.
  unfold accumulate_usage, abind, lift, ret, add_output_tokens.
  destruct (Py.contains "output_tokens" usage) as [[|] | e]; cbn; auto.
  destruct (Py.getitem usage "output_tokens") as [v | e]; cbn; auto.
  destruct (Py.num_add (output_tokens st) v); cbn; auto.
Qed.

Lemma calls_grow_parse (line : string) (now : Z) :
  yields calls_grow (parse_stream_line line now) (fun _ => True).
Proof.
  apply yields_parse_stream_line with (G := fun _ => True);
    try solve [unfold calls_grow; intros; cbn; lia | auto].
  - intros v xs _ _. induction xs; constructor; auto.
  - intros usage _ st; split; [| trivial].
    unfold calls_grow. destruct (accumulate_usage_frame usage st) as [-> _]. lia.
Qed.

Lemma stamped_parse (line : string) (now : Z) :
  yields (stamped now) (parse_stream_line line now) (fun _ => True).
Proof.
  apply yields_parse_stream_line with (G := fun _ => True);
    try solve [unfold stamped; intros; cbn; auto | auto].
  - unfold stamped; intros a b c [-> | ->] [-> | ->]; auto.
  - intros v xs _ _. induction xs; constructor; auto.
  - intros usage _ st; split; [| trivial].
    left. now destruct (accumulate_usage_frame usage st) as [_ ->].
Qed.

Lemma lookup_deltas_nonneg (items : list (string * json)) (k : string) (x : json) :
  deltas_nonneg (JObj items) = true -> Py.lookup items k = Some x ->
  deltas_nonneg x = true /\
  (k = "output_tokens" -> exists z, x = JInt z /\ 0 <= z).
Proof.
  cbn [deltas_nonneg]. induction items as [| [k' v] items IH]; cbn; [discriminate |].
  intros Hall Hk. apply andb_true_iff in Hall as [Hhead Htail].
  destruct (String.eqb k' k) eqn:Ek.
  - apply String.eqb_eq in Ek. subst k'. inversion Hk; subst v.
    apply andb_true_iff in Hhead as [Hfield Hv]. split; [exact Hv |].
    intros ->. cbn in Hfield. destruct x; try discriminate.
    exists z. split; [reflexivity | now apply Z.leb_le].
  - now apply IH.
Qed.

Lemma get_deltas_nonneg (v : json) (k : string) (d x : json) :
  deltas_nonneg v = true -> deltas_nonneg d = true -> Py.get v k d = Ok x ->
  deltas_nonneg x = true.
Proof.
  intros Hv Hd. destruct v; cbn; try discriminate.
  destruct (Py.lookup items k) eqn:Hk; intros Hx; inversion Hx; subst.
  - eapply lookup_deltas_nonneg; eauto.
  - exact Hd.
Qed.

Lemma getitem_deltas_nonneg (v : json) (k : string) (x : json) :
  deltas_nonneg v = true -> Py.getitem v k = Ok x -> deltas_nonneg x = true.
Proof.
  intros Hv. destruct v; cbn; try discriminate.
  destruct (Py.lookup items k) eqn:Hk; intros Hx; inversion Hx; subst.
  eapply lookup_deltas_nonneg; eauto.
Qed.

Lemma iter_deltas_nonneg (v : json) (xs : list json) :
  deltas_nonneg v = true -> Py.iter v = Ok xs ->
  Forall (fun x => deltas_nonneg x = true) xs.
Proof.
  intros Hv. destruct v; cbn; try discriminate; intros Hx; inversion Hx; subst.
  - apply Forall_forall. intros x Hin. apply in_map_iff in Hin as [c [<- _]]. reflexivity.
  - cbn in Hv. rewrite forallb_forall in Hv. now apply Forall_forall.
  - apply Forall_forall. intros x Hin. apply in_map_iff in Hin as [c [<- _]]. reflexivity.
Qed.

Lemma tokens_grow_usage (usage : json) :
  deltas_nonneg usage = true ->
  yields tokens_grow (accumulate_usage usage) (fun _ => True).
Proof.
  intros Husage st; split; [| trivial].
  intros n Hn Hpos.
  unfold accumulate_usage, abind, lift, ret, add_output_tokens.
  destruct usage; cbn; try (exists n; split; [assumption | lia]).
  - destruct (Text.contains "output_tokens" s); cbn; exists n; split; auto; lia.
  - destruct (existsb _ elems); cbn; exists n; split; auto; lia.
  - destruct (Py.lookup items "output_tokens") as [x |] eqn:Hx; cbn.
    + destruct (lookup_deltas_nonneg _ _ _ Husage Hx) as [_ Hint].
      destruct (Hint eq_refl) as [z [-> Hz]].
      rewrite Hn; cbn. exists (n + z). split; [reflexivity | lia].
    + exists n; split; auto; lia.
Qed.

Lemma tokens_grow_parse (line : string) (now : Z) :
  line_deltas_nonneg line = true ->
  yields tokens_grow (parse_stream_line line now) (fun _ => True).
Proof.
  intros Hline.
  apply yields_parse_stream_line with (G := fun v => deltas_nonneg v = true);
    try solve [unfold tokens_grow; intros; cbn; eauto using Z.le_refl | auto].
  - unfold tokens_grow; intros a b c Hab Hbc n Hn Hpos.
    destruct (Hab n Hn Hpos) as [n' [Hn' Hle]].
    destruct (Hbc n' Hn' ltac:(lia)) as [n'' [Hn'' Hle']].
    exists n''. split; [assumption | lia].
  - apply get_deltas_nonneg.
  - apply getitem_deltas_nonneg.
  - apply iter_deltas_nonneg.
  - apply tokens_grow_usage.
  - intros v Hv. unfold line_deltas_nonneg in Hline. now rewrite Hv in Hline.
Qed.

Lemma feed_app (st : ProgressState) (events more : list (string * Z)) :
  feed st (events ++ more) = feed (feed st events) more.
Proof. apply fold_left_app. Qed.

Lemma feed_calls_grow (events : list (string * Z)) (st : ProgressState) :
  tool_calls st <= tool_calls (feed st events).
Proof.
  revert st. induction events as [| [line now] events IH]; intros st; cbn; [lia |].
  destruct (calls_grow_parse line now st) as [Hstep _]. unfold calls_grow in Hstep.
  specialize (IH (fst (parse_stream_line line now st))). unfold feed in IH. lia.
Qed.

Lemma feed_tokens_grow (events : list (string * Z)) (st : ProgressState) (n : Z) :
  Forall (fun ev => line_deltas_nonneg (fst ev) = true) events ->
  output_tokens st = PInt n -> 0 <= n ->
  exists n', output_tokens (feed st events) = PInt n' /\ n <= n'.
Proof.
  intros Hall. revert st n.
  induction Hall as [| [line now] events Hline _ IH]; intros st n Hn Hpos; cbn.
  - exists n. split; [assumption | lia].
  - destruct (tokens_grow_parse line now Hline st) as [Hstep _].
    destruct (Hstep n Hn Hpos) as [n1 [Hn1 Hle1]].
    destruct (IH _ n1 Hn1 ltac:(lia)) as [n2 [Hn2 Hle2]].
    exists n2. split; [exact Hn2 | lia].
Qed.

Lemma last_cons_default (xs : list Z) (x d d' : Z) :
  last (x :: xs) d = last (x :: xs) d'.
Proof.
  revert x. induction xs as [| y xs IH]; intros x; [reflexivity |].
  change (last (y :: xs) d = last (y :: xs) d'). apply IH.
Qed.

Lemma clock_ordered_app (t : Z) (events more : list (string * Z)) :
  clock_ordered t (events ++ more) ->
  clock_ordered t events /\
  clock_ordered (last (map snd events) t) more.
Proof.
  revert t. induction events as [| ev events IH]; intros t; cbn; [auto |].
  intros [Hev Hrest]. destruct (IH _ Hrest) as [Hevents Hmore].
  split; [auto |].
  destruct events as [| ev' events]; [exact Hmore |].
  cbn [map] in *. change (clock_ordered (last (snd ev' :: map snd events) t) more).
  now rewrite (last_cons_default _ _ t (snd ev)).
Qed.

Lemma feed_stamped (events : list (string * Z)) (t : Z) (st : ProgressState) :
  last_event_time st <= t -> clock_ordered t events ->
  last_event_time st <= last_event_time (feed st events) /\
  last_event_time (feed st events) <= last (map snd events) t.
Proof.
  revert t st. induction events as [| [line now] events IH]; intros t st Ht; cbn.
  - intros _. lia.
  - intros [Hnow Hrest].
    destruct (stamped_parse line now st) as [Hstep _].
    set (st' := fst (parse_stream_line line now st)) in *.
    assert (Hst' : last_event_time st <= last_event_time st' <= now)
      by (destruct Hstep as [-> | ->]; lia).
    destruct (IH now st' ltac:(lia) Hrest) as [Hlow Hhigh].
    unfold feed in Hlow, Hhigh. split; [lia |].
    destruct events as [| ev' events]; [exact Hhigh |].
    cbn [map] in *. change (last_event_time (feed st' (ev' :: events))
                            <= last (snd ev' :: map snd events) t).
    now rewrite (last_cons_default _ _ t now).
Qed.

(** The timestamp half of C1, which holds: as long as the clock does not
    go back, the last-observed-event timestamp never decreases, whatever
    the lines are. *)
Lemma last_event_time_monotone (st : ProgressState) (events more : list (string * Z)) :
  clock_ordered (last_event_time st) (events ++ more) ->
  last_event_time (feed st events) <= last_event_time (feed st (events ++ more)).
Proof.
  intros Hclock. apply clock_ordered_app in Hclock as [Hevents Hmore].
  rewrite feed_app.
  destruct (feed_stamped events _ st (Z.le_refl _) Hevents) as [_ Hhigh].
  now destruct (feed_stamped more _ (feed st events) Hhigh Hmore).
Qed.

(** C1. A line that decodes to anything but an object makes the parser
    raise: [data.get] fails with an [AttributeError], which the handler of
    [parse_stream_line] does not catch. The line [123] is one. *)
Theorem parse_stream_line_raises (now : Z) (st : ProgressState) :
  parse_stream_line "123" now st = (st, Raise AttributeError).
Proof. reflexivity. Qed.

(** C7, as amended. Fed into a state whose counts are zero or more, any
    sequence of lines leaves the tool count zero or more and never lowers
    it; the token count stays an int of zero or more and is never lowered
    when every [output_tokens] field of the lines is a non-negative int. *)
Theorem counts_never_decrease (st : ProgressState) :
  counts_nonneg st ->
  forall events more : list (string * Z),
    (0 <= tool_calls (feed st events) <= tool_calls (feed st (events ++ more))) /\
    (Forall (fun ev => line_deltas_nonneg (fst ev) = true) (events ++ more) ->
     exists n n', output_tokens (feed st events) = PInt n /\
                  output_tokens (feed st (events ++ more)) = PInt n' /\
                  0 <= n <= n').
Proof.
  intros [Hcalls [n0 [Hn0 Hpos]]] events more. split.
  - rewrite feed_app.
    pose proof (feed_calls_grow events st).
    pose proof (feed_calls_grow more (feed st events)). lia.
  - intros Hall. apply Forall_app in Hall as [Hevents Hmore].
    destruct (feed_tokens_grow events st n0 Hevents Hn0 Hpos) as [n [Hn Hle]].
    destruct (feed_tokens_grow more (feed st events) n Hmore Hn ltac:(lia)) as [n' [Hn' Hle']].
    exists n, n'. rewrite feed_app. repeat split; auto; lia.
Qed.

End ParserInvariants.

(** ** The result reconciler *)

Lemma append_assoc (a b c : string) : (a ++ b) ++ c = a ++ (b ++ c).
Proof. induction a as [| x a IH]; cbn; [reflexivity | now rewrite IH]. Qed.

Lemma append_empty_r (a : string) : a ++ "" = a.
Proof. induction a as [| x a IH]; cbn; [reflexivity | now rewrite IH]. Qed.

Lemma fragment_lines_app (a b : list string) :
  fragment_lines (a ++ b) = fragment_lines a ++ fragment_lines b.
Proof.
  induction a as [| f a IH]; cbn; [reflexivity |].
  now rewrite IH, !append_assoc.
Qed.

Lemma first_result_passes (before rest : list string) :
  Forall passed_over before -> first_result (before ++ rest) = first_result rest.
Proof.
  induction 1 as [| line before Hline _ IH]; cbn; [reflexivity |].
  destruct Hline as [-> | [items [-> Hty]]]; [exact IH |].
  cbn. now rewrite Hty.
Qed.

Lemma first_result_found (line : string) (after : list string) (text : json) :
  result_event line text -> first_result (line :: after) = Ok text.
Proof.
  intros [items [Hload [Hty Htext]]]. cbn. rewrite Hload. cbn.
  now rewrite Hty, Htext.
Qed.

Lemma add_text_blocks_carries (blocks : list json) (fragments : list (list string)) :
  Forall2 block_carries blocks fragments ->
  forall acc, add_text_blocks blocks (JStr acc)
              = Ok (JStr (acc ++ fragment_lines (List.concat fragments))).
Proof.
  induction 1 as [| block fs blocks fragments Hblock _ IH]; intros acc; cbn.
  - now rewrite append_empty_r.
  - destruct Hblock as [items s Hty Htext | items Hty]; cbn.
    + rewrite Hty. unfold text_line. cbn. rewrite Htext. cbn.
      rewrite IH. now rewrite !append_assoc.
    + rewrite Hty. apply IH.
Qed.

Lemma assistant_text_carries (lines : list string) (fragments : list (list string)) :
  Forall2 line_carries lines fragments ->
  forall acc, assistant_text lines (JStr acc)
              = Ok (JStr (acc ++ fragment_lines (List.concat fragments))).
Proof.
  induction 1 as [| line fs lines fragments Hline _ IH]; intros acc; cbn.
  - now rewrite append_empty_r.
  - destruct Hline as [line Hload | line items Hload Hty
                       | line items message blocks frs Hload Hty Hmsg Hcontent Hblocks].
    + rewrite Hload. apply IH.
    + rewrite Hload. unfold add_assistant_text. cbn. rewrite Hty. apply IH.
    + rewrite Hload. unfold add_assistant_text. cbn. rewrite Hty. cbn.
      rewrite Hmsg. cbn. rewrite Hcontent. cbn.
      rewrite (add_text_blocks_carries _ _ Hblocks). rewrite IH.
      now rewrite fragment_lines_app, append_assoc.
Qed.

Lemma fragment_lines_nonempty (fragments : list string) :
  fragments <> [] -> String.eqb (fragment_lines fragments) "" = false.
Proof.
  destruct fragments as [| f later]; [congruence | intros _].
  cbn. destruct f; reflexivity.
Qed.

(** The second tier, when the first finds nothing to keep. *)
Lemma extract_second_tier (lines : list string) (fragments : list (list string))
      (stderr : string) :
  first_result lines = Ok (JStr "") ->
  Forall2 line_carries lines fragments ->
  List.concat fragments <> [] ->
  extract_final_text lines stderr
  = Ok (JStr (fragment_lines (List.concat fragments))).
Proof.
  intros Hfirst Hlines Hsome. unfold extract_final_text.
  rewrite Hfirst. cbn. rewrite (assistant_text_carries _ _ Hlines). cbn.
  now rewrite (fragment_lines_nonempty _ Hsome).
Qed.

(** C3, as amended. The final text is the result field of the first
    terminal-result event, when that field is a non-empty string and the
    lines before the event are ones the first loop passes over; assistant
    text in the stream does not matter. *)
Theorem first_result_wins (before : list string) (line : string) (after : list string)
        (stderr text : string) :
  Forall passed_over before ->
  result_event line (JStr text) ->
  text <> "" ->
  extract_final_text (before ++ line :: after) stderr = Ok (JStr text).
Proof.
  intros Hbefore Hline Htext. unfold extract_final_text.
  rewrite (first_result_passes _ _ Hbefore), (first_result_found _ _ _ Hline).
  cbn. destruct (String.eqb text "") eqn:E; [| cbn; now rewrite E].
  apply String.eqb_eq in E. contradiction.
Qed.

(** C4, as amended. With no terminal-result event in the stream, the
    fragments "Hello " and "world" give "Hello \nworld\n": each fragment is
    followed by a newline. *)
Theorem hello_world_lines (lines : list string) (fragments : list (list string))
        (stderr : string) :
  Forall passed_over lines ->
  Forall2 line_carries lines fragments ->
  List.concat fragments = ["Hello "; "world"] ->
  extract_final_text lines stderr
  = Ok (JStr ("Hello " ++ newline ++ "world" ++ newline)).
Proof.
  intros Hnone Hlines Hfr.
  rewrite (extract_second_tier lines fragments stderr); [now rewrite Hfr | | exact Hlines |].
  - rewrite <- (app_nil_r lines). now rewrite (first_result_passes _ _ Hnone).
  - now rewrite Hfr.
Qed.

(** C9, as amended. When the first terminal-result event has the empty
    string as its result and the stream carries assistant text fragments,
    the final text is not the empty result: it is the fragments, each
    followed by a newline. *)
Theorem empty_result_falls_through (before : list string) (line : string)
        (after : list string) (fragments : list (list string)) (stderr : string) :
  Forall passed_over before ->
  result_event line (JStr "") ->
  Forall2 line_carries (before ++ line :: after) fragments ->
  List.concat fragments <> [] ->
  extract_final_text (before ++ line :: after) stderr
  = Ok (JStr (fragment_lines (List.concat fragments))) /\
  String.eqb (fragment_lines (List.concat fragments)) "" = false.
Proof.
  intros Hbefore Hline Hlines Hsome. split.
  - apply extract_second_tier; [| exact Hlines | exact Hsome].
    now rewrite (first_result_passes _ _ Hbefore), (first_result_found _ _ _ Hline).
  - now apply fragment_lines_nonempty.
Qed.

(** ** The supervisor *)

Section SupervisorFacts.

Context {rt : PyRuntime}.

Lemma heartbeats_app (a b : list effect) :
  heartbeats (a ++ b) = (heartbeats a ++ heartbeats b)%list.
Proof. apply flat_map_app. Qed.


Lemma verdicts_app (a b : list effect) :
  verdicts (a ++ b) = (verdicts a ++ verdicts b)%list.
Proof. apply flat_map_app. Qed.

Lemma beats_quiet (beats : list effect) :
  Forall is_beat beats ->
  signals beats = [] /\ verdicts beats = [] /\
  Forall (fun e => loop_effect e = true) beats.
Proof.
  induction 1 as [| e beats [tok [jid [el [text ->]]]] _ [IHs [IHv IHl]]]; cbn; auto.
Qed.

(** What the loop does from any of its iterations on: heartbeats as
    scheduled, then, if a poll is out of time, the termination. *)
Lemma main_loop_end (args : Args) (jid tok : option string) (run : Run)
      (ticks : list Tick) :
  forall (r : Reader) (last : Z) (tr : list effect),
    let le := main_loop args jid tok run ticks r last tr in
    let readings := map (fun tk => whole_seconds (run_start run) (tick_clock tk)) ticks in
    let reached := existsb (fun e => timeout args <=? e) readings in
    let killed := kill_process_graceful (run_proc run) 10 in
    exists beats,
      Forall is_beat beats /\
      heartbeats beats
      = (if given jid && given tok then schedule (timeout args) readings last else []) /\
      le_trace le
      = (tr ++ beats ++ (if reached then LogTimeout :: map Signal (fst killed) else []))%list /\
      le_timed_out le = reached /\
      le_returncode le = (if reached then snd killed else Some (run_exit_code run)).
Proof.
  induction ticks as [| tk later IH]; intros r last tr; cbn zeta.
  - exists []. cbn. rewrite app_nil_r. repeat split; auto.
    now destruct (given jid && given tok).
  - cbn [main_loop map existsb schedule].
    set (elapsed := whole_seconds (run_start run) (tick_clock tk)).
    destruct (timeout args <=? elapsed) eqn:Eout.
    + exists []. destruct (kill_process_graceful (run_proc run) 10) as [calls code].
      cbn. repeat split; auto. now destruct (given jid && given tok).
    + cbn [orb].
      destruct jid as [j |], tok as [t |];
        try (destruct (IH (reader r (tick_lines tk)) last tr)
               as [beats [Hb [Hh [Ht [Hto Hrc]]]]];
             exists beats; repeat split; auto;
             rewrite Hh; cbn; now rewrite ?andb_false_r).
      destruct ((60 <=? elapsed - last) && given (Some j) && given (Some t)) eqn:Edue.
      * apply andb_true_iff in Edue as [Edue Ht]. apply andb_true_iff in Edue as [Edue Hj].
        unfold set_chunks_since_heartbeat, update. cbn iota beta.
        match goal with
        | |- context [main_loop _ _ _ _ later ?r' elapsed ?tr'] =>
            destruct (IH r' elapsed tr') as [beats [Hb [Hh [Htr [Hto Hrc]]]]]
        end.
        set (st := rd_state (reader r (tick_lines tk))) in *.
        exists (WhatsApp t j true
                  (Heartbeat elapsed
                     (heartbeat_text elapsed (tick_idle_clock tk - last_event_time st) st))
                :: beats).
        repeat split.
        -- constructor; [| exact Hb]. repeat eexists.
        -- change (elapsed :: heartbeats beats
                   = (if given (Some j) && given (Some t)
                      then if 60 <=? elapsed - last
                           then elapsed :: schedule (timeout args)
                                  (map (fun tk0 => whole_seconds (run_start run)
                                                     (tick_clock tk0)) later) elapsed
                           else schedule (timeout args)
                                  (map (fun tk0 => whole_seconds (run_start run)
                                                     (tick_clock tk0)) later) last
                      else [])).
           rewrite Hh, Hj, Ht, Edue. reflexivity.
        -- cbn zeta in Htr. rewrite Htr. unfold send_whatsapp.
           now rewrite <- app_assoc.
        -- exact Hto.
        -- exact Hrc.
      * destruct (IH (reader r (tick_lines tk)) last tr)
          as [beats [Hb [Hh [Ht [Hto Hrc]]]]].
        exists beats; repeat split; auto.
        rewrite Hh. destruct (given (Some j) && given (Some t)) eqn:Eg; [| reflexivity].
        apply andb_true_iff in Eg as [Hj Ht']. rewrite Hj, Ht' in Edue.
        rewrite !andb_true_r in Edue. now rewrite Edue.
Qed.


Ltac break_matches :=
  repeat match goal with
         | |- context [match ?x with _ => _ end] => destruct x eqn:?
         end.

Lemma launch_quiet (args : Args) (run : Run) :
  heartbeats (launch args run) = [] /\ signals (launch args run) = [] /\
  verdicts (launch args run) = [] /\
  Forall (fun e => loop_effect e = true) (launch args run).
Proof.
  unfold launch, send_whatsapp. break_matches; cbn; repeat split; auto.
Qed.

(** The trace of [main] up to the join: the launch message, the heartbeats,
    and the termination when a poll is out of time. *)
Lemma supervise_end (args : Args) (run : Run) :
  let le := supervise args run in
  let reached := timeout_reached args run in
  let killed := kill_process_graceful (run_proc run) 10 in
  exists beats,
    Forall is_beat beats /\
    heartbeats beats
    = (if given (extract_group_jid (session args)) && given (load_token args run)
       then schedule (timeout args) (elapsed_readings run) 0 else []) /\
    le_trace le
    = (launch args run ++ beats ++
       (if reached then LogTimeout :: map Signal (fst killed) else []))%list /\
    le_timed_out le = reached /\
    le_returncode le = (if reached then snd killed else Some (run_exit_code run)).
Proof.
  cbn zeta. unfold supervise; cbn [le_trace le_timed_out le_returncode].
  apply (main_loop_end args _ _ run (run_ticks run) (fresh_reader run) 0 (launch args run)).
Qed.


Lemma signals_map_Signal (calls : list proc_call) : signals (map Signal calls) = calls.
Proof. induction calls as [| c calls IH]; cbn; [reflexivity | now f_equal]. Qed.

Lemma heartbeats_map_Signal (calls : list proc_call) : heartbeats (map Signal calls) = [].
Proof. induction calls as [| c calls IH]; cbn; auto. Qed.

Lemma verdicts_map_Signal (calls : list proc_call) : verdicts (map Signal calls) = [].
Proof. induction calls as [| c calls IH]; cbn; auto. Qed.

Ltac crunch := repeat (break_matches; cbn); auto.

Lemma crash_handler_heartbeats (args : Args) (run : Run) (jid tok : option string)
      (code : option Z) (e : exn) :
  heartbeats (crash_handler args run jid tok code e) = [].
Proof.
  unfold crash_handler, notify_session, send_whatsapp, kill_process_graceful, proc_wait.
  rewrite !heartbeats_app. crunch.
Qed.

Lemma report_heartbeats (args : Args) (run : Run) (jid tok : option string)
      (path : string) (le : LoopEnd) (final_text : json) :
  heartbeats (fst (report args run jid tok path le final_text)) = [].
Proof.
  unfold report, notify_session, send_whatsapp. destruct final_text; cbn; auto.
  rewrite !heartbeats_app. crunch.
Qed.

Lemma reconcile_heartbeats (args : Args) (run : Run) (jid tok : option string)
      (path : string) (le : LoopEnd) :
  heartbeats (reconcile args run jid tok path le) = [].
Proof.
  unfold reconcile.
  destruct (given (resume args) && _ && _).
  - unfold notify_session, send_whatsapp. cbn. crunch.
  - destruct (extract_final_text _ _) as [final_text | e];
      [| apply crash_handler_heartbeats].
    pose proof (report_heartbeats args run jid tok path le final_text) as Hr.
    destruct (report args run jid tok path le final_text) as [done [[] | e]]; cbn [fst] in Hr.
    + exact Hr.
    + now rewrite heartbeats_app, Hr, crash_handler_heartbeats.
Qed.

(** The heartbeats of a run are those the schedule gives, when a group and
    a token are there, and none otherwise. *)
Lemma main_heartbeats (args : Args) (run : Run) :
  heartbeats (main args run)
  = (if given (extract_group_jid (session args)) && given (load_token args run)
     then schedule (timeout args) (elapsed_readings run) 0 else []).
Proof.
  unfold main.
  destruct (supervise_end args run) as [beats [Hb [Hh [Htr _]]]].
  destruct (launch_quiet args run) as [Hl _].
  rewrite heartbeats_app, reconcile_heartbeats, Htr, !heartbeats_app, Hl, Hh.
  destruct (timeout_reached args run); cbn [heartbeats flat_map];
    rewrite ?heartbeats_map_Signal, ?app_nil_r; reflexivity.
Qed.


Lemma group_jid_given (key : option string) (jid : string) :
  extract_group_jid key = Some jid -> given key = true /\ given (Some jid) = true.
Proof.
  unfold extract_group_jid. destruct (given key) eqn:Hk; cbn; [| discriminate].
  destruct key as [k |]; [| discriminate]. intros Hfind. split; [reflexivity |].
  apply find_some in Hfind as [_ Hjid]. destruct jid; [discriminate | reflexivity].
Qed.






Lemma loop_effects_silent (l : list effect) :
  Forall (fun e => loop_effect e = true) l ->
  registry_writes l = [] /\ result_files l = [] /\
  resume_failure_messages l = [] /\ resume_failure_wakeups l = [] /\ verdicts l = [].
Proof.
  induction 1 as [| e l He _ [IH1 [IH2 [IH3 [IH4 IH5]]]]]; cbn; [auto |].
  destruct e; try discriminate; try destruct body; try discriminate; cbn; auto.
Qed.

Lemma supervise_loop_effects (args : Args) (run : Run) :
  Forall (fun e => loop_effect e = true) (le_trace (supervise args run)).
Proof.
  destruct (supervise_end args run) as [beats [Hb [_ [-> _]]]].
  destruct (launch_quiet args run) as [_ [_ [_ Hl]]].
  destruct (beats_quiet _ Hb) as [_ [_ Hbl]].
  repeat (apply Forall_app; split); auto.
  destruct (timeout_reached args run); constructor; auto.
  apply Forall_forall. intros e He. apply in_map_iff in He as [c [<- _]]. reflexivity.
Qed.

Lemma contains_nonempty (needle : string) (hay : string) :
  needle <> "" -> Text.contains needle hay = true -> hay <> "".
Proof.
  intros Hn Hc ->. cbn in Hc. destruct needle; [contradiction | discriminate].
Qed.

(** C5, as amended. A run started with a resume token whose error stream
    has the not-found marker writes no registry entry and no result file
    and reports no other outcome; it sends one resume-failure message to
    the group and one to the session when the session key, the token and
    the group JID are all there, and none otherwise. *)
Theorem resume_failure_short_circuits (args : Args) (run : Run) (text : string) :
  given (resume args) = true ->
  run_stderr run = Some text ->
  Text.contains resume_marker text = true ->
  let tr := main args run in
  let n := if given (session args) && given (load_token args run)
              && given (extract_group_jid (session args))
           then 1%nat else 0%nat in
  registry_writes tr = [] /\ result_files tr = [] /\
  Forall (eq ResumeFailure) (verdicts tr) /\
  List.length (resume_failure_messages tr) = n /\
  List.length (resume_failure_wakeups tr) = n.
Proof.
  intros Hresume Hstderr Hmarker. cbn zeta.
  assert (Hne : text <> "") by (eapply contains_nonempty; [| exact Hmarker]; discriminate).
  destruct (loop_effects_silent _ (supervise_loop_effects args run))
    as [H1 [H2 [H3 [H4 H5]]]].
  unfold main, registry_writes, result_files, resume_failure_messages,
    resume_failure_wakeups in *.
  rewrite verdicts_app, !filter_app, H1, H2, H3, H4, H5. cbn [app].
  unfold reconcile, stderr_text. rewrite Hstderr, Hresume, Hmarker.
  replace (String.eqb text "") with false
    by (symmetry; apply String.eqb_neq; exact Hne).
  cbn [andb negb].
  unfold notify_session, send_whatsapp.
  destruct (resume args) as [id |]; [| discriminate].
  destruct (extract_group_jid (session args)) as [jid |] eqn:Hjid.
  - destruct (group_jid_given _ _ Hjid) as [Hkey Hgj]. rewrite Hkey, Hgj.
    destruct (session args) as [key |]; [| discriminate].
    cbn in Hkey, Hgj. rewrite Hkey.
    destruct (load_token args run) as [tok |]; [| cbn; repeat split; repeat constructor].
    destruct (given (Some tok)); cbn; repeat split; repeat constructor.
  - rewrite !andb_false_r.
    destruct (session args) as [key |], (load_token args run) as [tok |]; cbn; repeat split; repeat constructor.
Qed.







End SupervisorFacts.

(** * Instances and counterexamples *)

(** ** C1 *)

(** The same happens inside an assistant event whose content is [null]:
    the loop over the blocks raises a [TypeError]. *)
Example parse_stream_line_raises_on_null_content :
  forall (rt : PyRuntime) (now : Z) (st : ProgressState),
    snd (parse_stream_line
           (Json.text "{'type':'assistant','message':{'content':null}}") now st)
    = Raise TypeError.
Proof. reflexivity. Qed.

(** ** C2 *)



(** ** C3 *)

Lemma first_result_wins_witness :
  extract_final_text
    ([assistant_line "Working on it"] ++ result_line "Done." :: [assistant_line "Bye"])
    "" = Ok (JStr "Done.").
Proof.
  apply first_result_wins.
  - constructor; [| constructor]. right. eexists. split; reflexivity.
  - eexists. repeat split; reflexivity.
  - discriminate.
Defined.

(** With two terminal-result events the text of the first is kept, not
    that of the last. *)
Lemma last_result_is_not_used :
  let lines := [result_line "first"; result_line "second"] in
  result_event (last lines "") (JStr "second") /\
  extract_final_text lines "" = Ok (JStr "first") /\
  String.eqb "first" "second" = false.
Proof.
  repeat split; try reflexivity. eexists. repeat split; reflexivity.
Qed.

(** ** C4 *)

Lemma hello_world_lines_witness :
  extract_final_text [assistant_line "Hello "; assistant_line "world"] ""
  = Ok (JStr ("Hello " ++ newline ++ "world" ++ newline)).
Proof.
  apply hello_world_lines with (fragments := [["Hello "]; ["world"]]).
  - constructor; [right; eexists; split; reflexivity |].
    constructor; [right; eexists; split; reflexivity | constructor].
  - constructor; [| constructor; [| constructor]].
    + eapply (carries_assistant _ _ _ _ [["Hello "]]); try reflexivity.
      constructor; [| constructor]. eapply carries_text; reflexivity.
    + eapply (carries_assistant _ _ _ _ [["world"]]); try reflexivity.
      constructor; [| constructor]. eapply carries_text; reflexivity.
  - reflexivity.
Defined.

(** The fragments "Hello " and "world" give "Hello \nworld\n", which is
    not "Hello world\n". *)
Lemma hello_world_is_not_joined :
  let lines := [assistant_line "Hello "; assistant_line "world"] in
  extract_final_text lines ""
  = Ok (JStr ("Hello " ++ newline ++ "world" ++ newline)) /\
  String.eqb ("Hello " ++ newline ++ "world" ++ newline) ("Hello world" ++ newline)
  = false.
Proof. split; reflexivity. Qed.

(** ** C5 *)

Lemma resume_failure_short_circuits_witness :
  let args := example_args (Some group_session) 7200 (Some "0a1b") in
  let run := steady_run 1 [] not_found in
  let tr := @main example_runtime args run in
  given (resume args) = true /\
  Text.contains resume_marker not_found = true /\
  registry_writes tr = [] /\ result_files tr = [] /\
  Forall (eq ResumeFailure) (verdicts tr) /\
  List.length (resume_failure_messages tr) = 1%nat /\
  List.length (resume_failure_wakeups tr) = 1%nat.
Proof.
  split; [reflexivity |]. split; [reflexivity |].
  apply (@resume_failure_short_circuits example_runtime
           (example_args (Some group_session) 7200 (Some "0a1b"))
           (steady_run 1 [] not_found) not_found); reflexivity.
Defined.

(** Without a session key the short circuit sends nothing. *)
Lemma resume_failure_without_session_is_silent :
  let args := example_args None 7200 (Some "0a1b") in
  let run := steady_run 1 [] not_found in
  given (resume args) = true /\
  run_stderr run = Some not_found /\
  Text.contains resume_marker not_found = true /\
  forall rt : PyRuntime,
    @main rt args run = [LogResumeFailed] /\
    resume_failure_messages (@main rt args run) = [] /\
    resume_failure_wakeups (@main rt args run) = [].
Proof. repeat split; reflexivity. Qed.

(** ** C6 *)


(** ** C7 *)

Lemma counts_never_decrease_witness :
  let st := initial_state 0 in
  let events := [(tool_line, 1)] in
  let more := [(tool_line, 2)] in
  counts_nonneg st /\
  Forall (fun ev => line_deltas_nonneg (fst ev) = true) (events ++ more) /\
  (0 <= tool_calls (@feed example_runtime st events)
   <= tool_calls (@feed example_runtime st (events ++ more))) /\
  exists n n', output_tokens (@feed example_runtime st events) = PInt n /\
               output_tokens (@feed example_runtime st (events ++ more)) = PInt n' /\
               0 <= n <= n'.
Proof.
  set (st := initial_state 0). set (events := [(tool_line, 1)]).
  set (more := [(tool_line, 2)]). cbn zeta.
  assert (Hst : counts_nonneg st)
    by (split; [cbn; lia | exists 0; split; [reflexivity | lia]]).
  assert (Hall : Forall (fun ev => line_deltas_nonneg (fst ev) = true) (events ++ more))
    by (repeat constructor).
  destruct (@counts_never_decrease example_runtime st Hst events more) as [Hcalls Htokens].
  split; [exact Hst | split; [exact Hall | split; [exact Hcalls | exact (Htokens Hall)]]].
Defined.

(** A negative delta lowers the token count below zero. *)
Lemma negative_delta_lowers_tokens :
  counts_nonneg (initial_state 0) /\
  forall rt : PyRuntime,
    output_tokens (@feed rt (initial_state 0) [(negative_delta_line, 1)]) = PInt (-5).
Proof.
  split; [split; [cbn; lia | exists 0; split; [reflexivity | lia]] | reflexivity].
Qed.

(** ** C9 *)

Lemma empty_result_falls_through_witness :
  extract_final_text ([assistant_line "Hi"] ++ result_line "" :: []) ""
  = Ok (JStr (fragment_lines (List.concat [["Hi"]; []]))) /\
  String.eqb (fragment_lines (List.concat [["Hi"]; []])) "" = false.
Proof.
  apply empty_result_falls_through.
  - constructor; [| constructor]. right. eexists. split; reflexivity.
  - eexists. repeat split; reflexivity.
  - constructor; [| constructor; [| constructor]].
    + eapply (carries_assistant _ _ _ _ [["Hi"]]); try reflexivity.
      constructor; [| constructor]. eapply carries_text; reflexivity.
    + eapply carries_not_assistant; reflexivity.
  - discriminate.
Defined.

(** An empty terminal result is not kept when assistant text is there. *)
Lemma empty_result_is_not_preferred :
  let lines := [assistant_line "Hi"; result_line ""] in
  result_event (last lines "") (JStr "") /\
  extract_final_text lines "" = Ok (JStr ("Hi" ++ newline)) /\
  String.eqb ("Hi" ++ newline) "" = false.
Proof.
  repeat split; try reflexivity. eexists. repeat split; reflexivity.
Qed.

(** ** C10 *)


(** * Further properties *)


(** ** The group JID of a session key *)

Lemma split_on_cons (sep : ascii) (s : string) :
  exists h more, Text.split_on sep s = h :: more.
Proof.
  destruct s as [| c rest]; cbn; [eauto |].
  destruct (Ascii.eqb c sep); [eauto |].
  destruct (Text.split_on sep rest); eauto.
Qed.

Lemma prefix_first_field (sep : ascii) (s : string) :
  forall needle h more,
    Text.split_on sep s = h :: more -> avoids sep needle = true ->
    prefix needle s = prefix needle h.
Proof.
  induction s as [| c rest IH]; intros needle h more Hsplit Havoid; cbn in Hsplit.
  - now inversion Hsplit.
  - destruct (Ascii.eqb c sep) eqn:Ec.
    + inversion Hsplit; subst h more. apply Ascii.eqb_eq in Ec. subst c.
      destruct needle as [| a needle]; [reflexivity |]. cbn in Havoid |- *.
      apply andb_true_iff in Havoid as [Ha _].
      destruct (ascii_dec a sep) as [-> |]; [| reflexivity].
      now rewrite Ascii.eqb_refl in Ha.
    + destruct (split_on_cons sep rest) as [h' [more' Hrest]].
      rewrite Hrest in Hsplit. inversion Hsplit; subst h more.
      destruct needle as [| a needle]; [reflexivity |]. cbn in Havoid |- *.
      apply andb_true_iff in Havoid as [_ Hneedle].
      destruct (ascii_dec a c); [| reflexivity].
      now apply (IH needle h' more').
Qed.

(** A text free of the separator occurs in a string exactly when it occurs
    in one of the fields of the string. *)
Lemma contains_some_field (sep : ascii) (needle : string) :
  avoids sep needle = true -> needle <> "" ->
  forall s, existsb (Text.contains needle) (Text.split_on sep s) = Text.contains needle s.
Proof.
  intros Havoid Hne. induction s as [| c rest IH]; [cbn; now rewrite orb_false_r |].
  cbn [Text.split_on]. destruct (Ascii.eqb c sep) eqn:Ec.
  - cbn [existsb]. rewrite IH. cbn [Text.contains].
    apply Ascii.eqb_eq in Ec. subst c.
    replace (prefix needle (String sep rest)) with false; [now destruct needle |].
    destruct needle as [| a needle]; [contradiction |]. cbn in Havoid |- *.
    apply andb_true_iff in Havoid as [Ha _].
    destruct (ascii_dec a sep) as [-> |]; [| reflexivity].
    now rewrite Ascii.eqb_refl in Ha.
  - destruct (split_on_cons sep rest) as [h [more Hrest]].
    rewrite Hrest in IH |- *. cbn [existsb] in IH |- *. cbn [Text.contains].
    rewrite <- IH.
    assert (Hp : prefix needle (String c rest) = prefix needle (String c h)).
    { destruct needle as [| a needle]; [reflexivity |]. cbn in Havoid |- *.
      apply andb_true_iff in Havoid as [_ Hneedle].
      destruct (ascii_dec a c); [| reflexivity].
      now apply (prefix_first_field sep rest needle h more). }
    rewrite Hp. now rewrite !orb_assoc.
Qed.

Lemma fields_avoid (sep : ascii) (s : string) :
  Forall (fun f => Text.contains (String sep "") f = false) (Text.split_on sep s).
Proof.
  induction s as [| c rest IH]; cbn [Text.split_on]; [now constructor |].
  destruct (Ascii.eqb c sep) eqn:Ec; [now constructor |].
  destruct (split_on_cons sep rest) as [h [more Hrest]]. rewrite Hrest in IH |- *.
  inversion IH as [| ? ? Hh Hmore]; subst. constructor; [| exact Hmore].
  cbn [Text.contains prefix]. cbn [Text.contains] in Hh.
  destruct (ascii_dec sep c) as [-> |]; [now rewrite Ascii.eqb_refl in Ec |].
  exact Hh.
Qed.

Lemma find_existsb {A : Type} (f : A -> bool) (l : list A) :
  match find f l with Some _ => true | None => false end = existsb f l.
Proof.
  induction l as [| x l IH]; cbn; [reflexivity |]. now destruct (f x).
Qed.

(** X1. The group JID extracted from a session key is one of the fields
    the colons of the key separate: it contains "@g.us" and no colon. *)
Theorem group_jid_is_a_field (key : option string) (jid : string) :
  extract_group_jid key = Some jid ->
  exists k, key = Some k /\ In jid (Text.split_on ":" k) /\
            Text.contains "@g.us" jid = true /\ Text.contains ":" jid = false.
Proof.
  unfold extract_group_jid. destruct (given key); cbn; [| discriminate].
  destruct key as [k |]; [| discriminate]. intros Hfind.
  apply find_some in Hfind as [Hin Hjid]. exists k. repeat split; auto.
  pose proof (fields_avoid ":" k) as Hall. rewrite Forall_forall in Hall.
  now apply Hall.
Qed.

(** X2. A group JID is extracted from a session key exactly when the key
    contains "@g.us" somewhere. *)
Theorem group_jid_found_iff (key : string) :
  match extract_group_jid (Some key) with Some _ => true | None => false end
  = Text.contains "@g.us" key.
Proof.
  unfold extract_group_jid. cbn [given].
  destruct (String.eqb key "") eqn:Ekey; cbn [negb].
  - apply String.eqb_eq in Ekey. now subst key.
  - rewrite find_existsb. apply contains_some_field; [reflexivity | discriminate].
Qed.


(** ** More on the event parser and the reader thread *)

Section ParserEdges.

Context {rt : PyRuntime}.


Lemma keeps_stamp_parse (line : string) (now : Z) :
  yields (keeps_stamp now) (parse_stream_line line now) (fun _ => True).
Proof.
  apply yields_parse_stream_line with (G := fun _ => True);
    try solve [unfold keeps_stamp; intros; cbn; auto | auto].
  - intros v xs _ _. induction xs; constructor; auto.
  - intros usage _ st; split; [| trivial].
    unfold keeps_stamp. now destruct (accumulate_usage_frame usage st) as [_ ->].
Qed.

Lemma abind_lift_ok {A B : Type} (a : A) (k : A -> action B) (st : ProgressState) :
  abind (lift (Ok a)) k st = k a st.
Proof. reflexivity. Qed.

Lemma abind_stamp {B : Type} (now : Z) (k : unit -> action B) (st : ProgressState) :
  abind (set_last_event_time now) k st = k tt (fst (set_last_event_time now st)).
Proof. reflexivity. Qed.

Lemma parse_after_stamp (line : string) (now : Z) (st : ProgressState)
      (items : list (string * json)) :
  Json.loads line = Ok (JObj items) ->
  parse_stream_line line now st
  = parse_stream_line line now (fst (set_last_event_time now st)).
Proof.
  intros Hload.
  unfold parse_stream_line, except_decode_or_key, parse_stream_event.
  rewrite Hload, !abind_lift_ok. cbn [Py.get].
  rewrite !abind_lift_ok, !abind_stamp. reflexivity.
Qed.

(** X4. A line that decodes to a JSON object refreshes the liveness
    timestamp to the clock reading of its parse, whatever the object holds
    and even when the rest of its handling raises. *)
Theorem object_line_refreshes_liveness (line : string) (now : Z) (st : ProgressState)
        (items : list (string * json)) :
  Json.loads line = Ok (JObj items) ->
  last_event_time (fst (parse_stream_line line now st)) = now.
Proof.
  intros Hload. rewrite (parse_after_stamp line now st items Hload).
  destruct (keeps_stamp_parse line now (fst (set_last_event_time now st))) as [Hkeep _].
  now apply Hkeep.
Qed.

Lemma files_extend_parse (line : string) (now : Z) :
  yields files_extend (parse_stream_line line now) (fun _ => True).
Proof.
  apply yields_parse_stream_line with (G := fun _ => True);
    try solve [unfold files_extend; intros; cbn; exists []; now rewrite app_nil_r | auto].
  - intros a b c [n1 H1] [n2 H2]. exists (n1 ++ n2)%list.
    now rewrite H2, H1, app_assoc.
  - intros v xs _ _. induction xs; constructor; auto.
  - intros s st. cbn. now exists [s].
  - intros usage _ st; split; [| trivial].
    exists []. rewrite app_nil_r.
    unfold accumulate_usage, abind, lift, ret, add_output_tokens.
    destruct (Py.contains "output_tokens" usage) as [[|] | e]; cbn; auto.
    destruct (Py.getitem usage "output_tokens") as [v | e]; cbn; auto.
    destruct (Py.num_add (output_tokens st) v); cbn; auto.
Qed.

(** X5. Whatever lines are fed to the parser, the list of written files
    is only ever appended to. *)
Theorem files_written_only_grows (st : ProgressState) (events : list (string * Z)) :
  files_extend st (feed st events).
Proof.
  revert st. induction events as [| [line now] events IH]; intros st.
  - exists []. now rewrite app_nil_r.
  - cbn. destruct (IH (fst (parse_stream_line line now st))) as [new Hnew].
    destruct (files_extend_parse line now st) as [[new0 Hnew0] _].
    unfold feed in Hnew.
    exists (new0 ++ new)%list. now rewrite Hnew, Hnew0, app_assoc.
Qed.

(** X6. An event of a type the parser has no case for changes nothing but
    the liveness timestamp, and raises nothing. *)
Theorem unknown_event_only_refreshes_liveness (line : string) (now : Z)
        (st : ProgressState) (items : list (string * json)) :
  Json.loads line = Ok (JObj items) ->
  handled_type (match Py.lookup items "type" with
                | Some ty => ty
                | None => JStr ""
                end) = false ->
  parse_stream_line line now st = (fst (set_last_event_time now st), Ok tt).
Proof.
  intros Hload Hty.
  unfold handled_type in Hty.
  repeat (apply orb_false_iff in Hty as [Hty ?]).
  unfold parse_stream_line, except_decode_or_key, parse_stream_event.
  rewrite Hload, !abind_lift_ok. cbn [Py.get].
  rewrite !abind_lift_ok, !abind_stamp.
  set (ty := match Py.lookup items "type" with Some t => t | None => JStr "" end) in *.
  rewrite Hty. unfold abind at 1. unfold ret at 1. cbn iota beta.
  repeat match goal with
         | H : Py.eq_str ty _ = false |- _ => rewrite H; clear H
         end.
  destruct (Py.eq_str ty "content_block_stop"); reflexivity.
Qed.

(** X7. An init event that carries a session id replaces whatever id was
    captured before: the id kept is that of the latest such event. *)
Theorem init_event_replaces_session_id (line : string) (now : Z) (st : ProgressState)
        (items : list (string * json)) (id : json) :
  Json.loads line = Ok (JObj items) ->
  Py.lookup items "type" = Some (JStr "system") ->
  Py.lookup items "subtype" = Some (JStr "init") ->
  Py.lookup items "session_id" = Some id ->
  Py.truthy id = true ->
  parse_stream_line line now st
  = (fst (set_session_id id (fst (set_last_event_time now st))), Ok tt).
Proof.
  intros Hload Hty Hsub Hid Htruthy.
  unfold parse_stream_line, except_decode_or_key, parse_stream_event.
  rewrite Hload, !abind_lift_ok. cbn [Py.get].
  rewrite Hty, !abind_lift_ok, !abind_stamp. cbn [Py.eq_str String.eqb Ascii.eqb Bool.eqb].
  unfold abind at 1. unfold ret at 1. cbn iota beta.
  unfold abind at 1. cbn [Py.get lift]. rewrite Hsub, Hid.
  cbn. rewrite Htruthy. reflexivity.
Qed.

(** X8. The captured output is only ever appended to, and what is appended
    are lines of the stream with their surrounding blanks stripped, none
    of them empty. *)
Theorem reader_appends_stripped_lines (r : Reader) (incoming : list (string * Z)) :
  exists new,
    rd_output_lines (reader r incoming) = (rd_output_lines r ++ new)%list /\
    Forall (fun line => String.eqb line "" = false /\
                        In line (map (fun ev => Whitespace.strip (fst ev)) incoming))
           new.
Proof.
  revert r. induction incoming as [| [raw now] incoming IH]; intros r.
  - exists []. cbn. now rewrite app_nil_r.
  - cbn [reader fold_left]. fold (reader (reader_step r (raw, now)) incoming).
    destruct (IH (reader_step r (raw, now))) as [new [Hnew Hall]].
    assert (Hlater : Forall (fun line => String.eqb line "" = false /\
                In line (map (fun ev => Whitespace.strip (fst ev)) ((raw, now) :: incoming)))
              new).
    { eapply Forall_impl; [| exact Hall]. cbn. intros l [? ?]. auto. }
    unfold reader_step in Hnew |- *.
    destruct (rd_dead r); [exists new; auto |].
    destruct (String.eqb (Whitespace.strip raw) "") eqn:Eempty; [exists new; auto |].
    destruct (parse_stream_line (Whitespace.strip raw) now (rd_state r)) as [st outcome].
    cbn [rd_output_lines] in Hnew.
    exists (Whitespace.strip raw :: new). split.
    + rewrite Hnew. now rewrite <- app_assoc.
    + constructor; [| exact Hlater]. split; [exact Eempty | now left].
Qed.

Lemma dead_reader_is_inert (r : Reader) (incoming : list (string * Z)) :
  rd_dead r = true -> reader r incoming = r.
Proof.
  intros Hdead. induction incoming as [| ev incoming IH]; [reflexivity |].
  cbn [reader fold_left]. fold (reader (reader_step r ev) incoming).
  replace (reader_step r ev) with r; [exact IH |].
  unfold reader_step. destruct ev. now rewrite Hdead.
Qed.

(** X9. A line on which the parser raises ends the reader thread: the line
    itself is captured, and no line after it is captured or parsed. *)
Theorem reader_stops_at_raise (r : Reader) (raw : string) (now : Z) (e : exn)
        (later : list (string * Z)) :
  rd_dead r = false ->
  String.eqb (Whitespace.strip raw) "" = false ->
  snd (parse_stream_line (Whitespace.strip raw) now (rd_state r)) = Raise e ->
  reader r ((raw, now) :: later)
  = {| rd_state := fst (parse_stream_line (Whitespace.strip raw) now (rd_state r));
       rd_output_lines := (rd_output_lines r ++ [Whitespace.strip raw])%list;
       rd_dead := true |}.
Proof.
  intros Halive Hline Hraise.
  cbn [reader fold_left]. fold (reader (reader_step r (raw, now)) later).
  unfold reader_step. rewrite Halive, Hline.
  destruct (parse_stream_line (Whitespace.strip raw) now (rd_state r)) as [st outcome].
  cbn in Hraise. subst outcome. cbn [raises fst].
  now apply dead_reader_is_inert.
Qed.

End ParserEdges.


(** ** More on the supervisor and the reconciler *)

Section RunFacts.

Context {rt : PyRuntime}.

Ltac split_matches :=
  repeat match goal with
         | |- context [match ?x with _ => _ end] => destruct x eqn:?
         end.

Ltac cases := repeat (split_matches; cbn in *); auto; try discriminate; try congruence.

Ltac dead_guard :=
  repeat match goal with
         | H : context [(_ && false)%bool] |- _ =>
             rewrite ?andb_false_r, ?andb_false_l in H; cbn in H
         end;
  try discriminate.

Ltac split_running :=
  match goal with
  | |- context [if ?b then map Signal _ else _] => destruct b
  end.

Lemma schedule_spaced (limit : Z) (readings : list Z) :
  forall last,
    spaced 60 last (schedule limit readings last) /\
    Forall (fun t => t < limit) (schedule limit readings last).
Proof.
  induction readings as [| e readings IH]; intros last; cbn; [auto |].
  destruct (limit <=? e) eqn:Eout; [cbn; auto |].
  destruct (60 <=? e - last) eqn:Edue; [| apply IH].
  destruct (IH e) as [Hsp Hall]. apply Z.leb_gt in Eout. apply Z.leb_le in Edue.
  split; [cbn; split; [lia | exact Hsp] | constructor; [lia | exact Hall]].
Qed.

(** X10. In every run the heartbeats come at least 60 seconds apart, the
    first no sooner than 60 seconds after the start, and none is sent at a
    poll that is out of time. *)
Theorem heartbeats_are_spaced (args : Args) (run : Run) :
  spaced 60 0 (heartbeats (main args run)) /\
  Forall (fun t => t < timeout args) (heartbeats (main args run)).
Proof.
  rewrite main_heartbeats.
  destruct (given (extract_group_jid (session args)) && given (load_token args run)).
  - apply schedule_spaced.
  - cbn. auto.
Qed.

(** X11. A heartbeat does not show the recorded activity when the stream
    has been silent for more than 120 seconds, nor when it has been silent
    for more than 15 seconds with no content increment since the last
    heartbeat: the thinking note takes its place. *)
Theorem silent_heartbeat_hides_activity (elapsed idle : Z) (st : ProgressState)
        (activity : string) :
  120 * second < idle \/ (15 * second < idle /\ chunks_since_heartbeat st = 0) ->
  heartbeat_text elapsed idle (fst (set_last_activity activity st))
  = heartbeat_text elapsed idle st.
Proof.
  intros Hsilent. unfold heartbeat_text. cbn [set_last_activity update fst
    chunks_since_heartbeat output_tokens tool_calls last_activity].
  destruct (120 * second <? idle) eqn:Estall; [reflexivity |].
  destruct Hsilent as [H | [Hidle Hchunks]]; [apply Z.ltb_ge in Estall; lia |].
  rewrite Hchunks.
  replace (15 * second <? idle) with true by (symmetry; apply Z.ltb_lt; lia).
  reflexivity.
Qed.

(** X12. Stopping the subprocess starts with [terminate()], never waits
    more than the grace period and 5 seconds in all, sends [kill()] exactly
    when the subprocess outlives the grace period, and leaves no return
    code exactly when the subprocess outlives both waits. *)
Theorem kill_process_graceful_bounds (proc : Subprocess) (grace : Z) :
  let calls := fst (kill_process_graceful proc grace) in
  let code := snd (kill_process_graceful proc grace) in
  hd_error calls = Some Terminate /\
  grace <= total_wait calls <= grace + 5 /\
  (existsb (fun c => match c with Kill => true | _ => false end) calls
   = match exit_after_terminate proc with Some _ => false | None => true end) /\
  (match code with Some _ => false | None => true end
   = match exit_after_terminate proc, exit_after_kill proc with
     | None, None => true
     | _, _ => false
     end).
Proof.
  unfold kill_process_graceful, proc_wait.
  destruct (exit_after_terminate proc), (exit_after_kill proc); cbn; repeat split; lia.
Qed.

(** The three ways the reconciliation ends: the resume short circuit, the
    crash handler, the report. *)
Lemma reconcile_ind (P : list effect -> Prop) (args : Args) (run : Run)
      (jid tok : option string) (path : string) (le : LoopEnd) :
  (resume_failed args run = true ->
   P (LogResumeFailed ::
      match session args, tok, resume args with
      | Some key, Some t, Some id =>
          if given (session args) && given tok && given jid
          then notify_session t key jid (ResumeFailed id)
          else []
      | _, _, _ => []
      end)) ->
  (resume_failed args run = false ->
   forall e, P (crash_handler args run jid tok (le_returncode le) e)) ->
  (resume_failed args run = false ->
   forall text,
     extract_final_text (rd_output_lines (le_reader le)) (stderr_text run)
     = Ok (JStr text) ->
     P (fst (report args run jid tok path le (JStr text)))) ->
  P (reconcile args run jid tok path le).
Proof.
  intros Hresume Hcrash Hreport. unfold reconcile.
  fold (resume_failed args run). destruct (resume_failed args run).
  - now apply Hresume.
  - destruct (extract_final_text _ _) as [final_text | e] eqn:Hextract;
      [| now apply Hcrash].
    destruct final_text; try (cbn; now apply Hcrash).
    specialize (Hreport eq_refl s eq_refl). cbn in Hreport |- *. exact Hreport.
Qed.

Lemma beats_nil (beats : list effect) :
  Forall is_beat beats -> heartbeats beats = [] -> beats = [].
Proof.
  destruct 1 as [| e beats [tok [jid [el [text ->]]]] _]; [reflexivity | discriminate].
Qed.

Lemma requests_app (a b : list effect) :
  requests (a ++ b) = (requests a ++ requests b)%list.
Proof. apply filter_app. Qed.

Lemma requests_map_Signal (calls : list proc_call) : requests (map Signal calls) = [].
Proof. induction calls as [| c calls IH]; cbn; auto. Qed.

(** X13. A run without a usable token (no session key, a token that
    cannot be loaded, or an empty one) sends nothing to the gateway: no
    launch message, no heartbeat, no result, no crash report. *)
Theorem no_token_no_request (args : Args) (run : Run) :
  given (load_token args run) = false ->
  requests (main args run) = [].
Proof.
  intros Htok. unfold main.
  destruct (supervise_end args run) as [beats [Hb [Hh [Htr _]]]].
  rewrite Htok, andb_false_r in Hh. rewrite (beats_nil _ Hb Hh) in Htr.
  rewrite requests_app, Htr, !requests_app.
  replace (launch args run) with (@nil effect)
    by (unfold launch; rewrite Htok, andb_false_r; cases).
  cbn [requests filter app].
  replace (requests (if timeout_reached args run
                     then LogTimeout :: map Signal
                            (fst (kill_process_graceful (run_proc run) 10))
                     else [])) with (@nil effect)
    by (destruct (timeout_reached args run); cbn;
        [change (filter _ (map Signal ?l)) with (requests (map Signal l));
         now rewrite requests_map_Signal | reflexivity]).
  cbn [app].
  assert (Hcase : load_token args run = None \/
                  exists t, load_token args run = Some t /\ String.eqb t "" = true).
  { destruct (load_token args run) as [t |]; [right | now left].
    exists t. split; [reflexivity |]. cbn in Htok. now apply negb_false_iff in Htok. }
  clear Htok Htr Hh.
  apply reconcile_ind.
  - intros _. destruct Hcase as [-> | [t [-> Ht]]]; cbn [given]; rewrite ?Ht; cases;
      dead_guard.
  - intros _ e. unfold crash_handler, notify_session, send_whatsapp,
      kill_process_graceful, proc_wait.
    destruct Hcase as [-> | [t [-> Ht]]]; cbn [given]; rewrite ?Ht;
      rewrite !requests_app; cases; dead_guard.
  - intros _ text _. unfold report, notify_session, send_whatsapp.
    destruct Hcase as [-> | [t [-> Ht]]]; cbn [given fst]; rewrite ?Ht;
      rewrite !requests_app; cases; dead_guard.
Qed.



Lemma loop_effects_plain (l : list effect) :
  Forall (fun e => loop_effect e = true) l ->
  wakeups l = [] /\ direct_crash_messages l = [] /\ forallb effect_bounded l = true.
Proof.
  induction 1 as [| e l He _ [IH1 [IH2 IH3]]]; cbn; [auto |].
  destruct e; try discriminate; try destruct body; try discriminate; cbn; auto.
Qed.



Lemma result_files_app (a b : list effect) :
  result_files (a ++ b) = (result_files a ++ result_files b)%list.
Proof. apply filter_app. Qed.

Lemma registry_writes_app (a b : list effect) :
  registry_writes (a ++ b) = (registry_writes a ++ registry_writes b)%list.
Proof. apply filter_app. Qed.

Lemma wakeups_app (a b : list effect) :
  wakeups (a ++ b) = (wakeups a ++ wakeups b)%list.
Proof. apply filter_app. Qed.

Lemma filter_map_Signal (f : effect -> bool) (calls : list proc_call) :
  (forall c, f (Signal c) = false) -> filter f (map Signal calls) = [].
Proof.
  intros Hf. induction calls as [| c calls IH]; cbn; [reflexivity |].
  now rewrite Hf.
Qed.

Lemma notify_session_writes (tok key : string) (jid : option string) (body : notice) :
  result_files (notify_session tok key jid body) = [] /\
  registry_writes (notify_session tok key jid body) = [].
Proof.
  unfold notify_session, send_whatsapp.
  destruct jid as [j |]; [destruct (given (Some j)) |];
    destruct (negb (String.eqb key "")); split; reflexivity.
Qed.

(** The crash handler writes no file and no registry entry. *)
Lemma crash_handler_writes (args : Args) (run : Run) (jid tok : option string)
      (code : option Z) (e : exn) :
  result_files (crash_handler args run jid tok code e) = [] /\
  registry_writes (crash_handler args run jid tok code e) = [].
Proof.
  unfold crash_handler, send_whatsapp.
  assert (Hs : forall calls, result_files (map Signal calls) = [] /\
                             registry_writes (map Signal calls) = []).
  { intros calls. split; now apply filter_map_Signal. }
  destruct (Hs (fst (kill_process_graceful (run_proc run) 10))) as [Hs1 Hs2].
  assert (Hn : forall l : list effect,
             (l = [] \/ exists tok key body, l = notify_session tok key jid body) ->
             result_files l = [] /\ registry_writes l = []).
  { intros l [-> | [t [k [b ->]]]]; [split; reflexivity | apply notify_session_writes]. }
  match goal with
  | |- context [(?a ++ ?b ++ ?c ++ ?d)%list] =>
      assert (Hb : result_files b = [] /\ registry_writes b = [])
        by (split_running;
            [split; [exact Hs1 | exact Hs2] | split; reflexivity]);
      assert (Hc : result_files c = [] /\ registry_writes c = [])
        by (apply Hn; destruct (session args), tok; auto;
            destruct (_ && _); eauto);
      assert (Hd : result_files d = [] /\ registry_writes d = [])
        by (destruct jid, tok; try (split; reflexivity);
            destruct (_ && _ && _); split; reflexivity);
      rewrite !result_files_app, !registry_writes_app;
      destruct Hb as [-> ->], Hc as [-> ->], Hd as [-> ->]
  end.
  split; reflexivity.
Qed.

(** What the report writes: the result file, and the registry entry when
    the stream gave a session id. *)
Lemma report_writes (args : Args) (run : Run) (jid tok : option string)
      (path : string) (le : LoopEnd) (text : string) :
  let done := fst (report args run jid tok path le (JStr text)) in
  let st := rd_state (le_reader le) in
  result_files done = [WriteText path text] /\
  registry_writes done
  = (if Py.truthy (session_id st)
     then [Register (session_id st) (session_label args) (task args) (project args)
                    (session args) path
                    (session_status (le_timed_out le)
                       match le_returncode le with Some c => c | None => -1 end)]
     else []).
Proof.
  cbn zeta. unfold report. cbn [fst].
  match goal with
  | |- context [(?a ++ ?b ++ ?c)%list] =>
      assert (Hc : result_files c = [] /\ registry_writes c = [])
        by (destruct (session args), tok; try (split; reflexivity);
            destruct (_ && _); [apply notify_session_writes | split; reflexivity]);
      rewrite !result_files_app, !registry_writes_app;
      destruct Hc as [-> ->]
  end.
  rewrite !app_nil_r.
  destruct (Py.truthy (session_id (rd_state (le_reader le)))); split; reflexivity.
Qed.

(** The result files and the registry entries of a run. *)
Lemma main_writes (args : Args) (run : Run) :
  let le := supervise args run in
  let st := rd_state (le_reader le) in
  let written :=
    if resume_failed args run then None
    else match extract_final_text (captured args run) (stderr_text run) with
         | Ok (JStr text) => Some text
         | _ => None
         end in
  result_files (main args run)
  = match written with
    | Some text => [WriteText (output_path args run) text]
    | None => []
    end /\
  registry_writes (main args run)
  = match written with
    | Some text =>
        if Py.truthy (session_id st)
        then [Register (session_id st) (session_label args) (task args) (project args)
                       (session args) (output_path args run)
                       (session_status (le_timed_out le)
                          match le_returncode le with Some c => c | None => -1 end)]
        else []
    | None => []
    end.
Proof.
  cbn zeta.
  destruct (loop_effects_silent _ (supervise_loop_effects args run))
    as [Hr [Hf _]].
  unfold main. rewrite result_files_app, registry_writes_app, Hr, Hf. cbn [app].
  unfold reconcile, captured. fold (resume_failed args run).
  destruct (resume_failed args run).
  - cbn [result_files registry_writes filter].
    destruct (session args), (load_token args run), (resume args);
      try (split; reflexivity).
    destruct (_ && _ && _); [apply notify_session_writes | split; reflexivity].
  - destruct (extract_final_text _ _) as [v | e];
      [| apply crash_handler_writes].
    destruct v; try (cbn [report app]; apply crash_handler_writes).
    pose proof (report_writes args run (extract_group_jid (session args))
                  (load_token args run) (output_path args run) (supervise args run) s)
      as Hw.
    cbn zeta in Hw. unfold report in Hw |- *. cbn [fst] in Hw. exact Hw.
Qed.


(** X16. A run writes at most one registry entry, and none without a
    result file; the entry carries a session id that is not empty, the
    output path, and one of the three statuses, [timeout] exactly when a
    poll was out of time. *)
Theorem registry_entry_shape (args : Args) (run : Run) :
  (List.length (registry_writes (main args run))
   <= List.length (result_files (main args run)) <= 1)%nat /\
  Forall (fun e => match e with
                   | Register id _ _ _ _ path status =>
                       Py.truthy id = true /\
                       id = session_id (rd_state (le_reader (supervise args run))) /\
                       path = output_path args run /\
                       In status ["timeout"; "completed"; "failed"] /\
                       String.eqb status "timeout" = timeout_reached args run
                   | _ => True
                   end) (registry_writes (main args run)).
Proof.
  destruct (main_writes args run) as [Hf Hr]. cbn zeta in Hf, Hr. rewrite Hf, Hr.
  destruct (supervise_end args run) as [beats [_ [_ [_ [Hto _]]]]].
  cbn zeta in Hto. rewrite Hto.
  destruct (if resume_failed args run then None else _) as [text |];
    [| cbn; split; [lia | constructor]].
  destruct (Py.truthy (session_id _)) eqn:Hid; cbn [List.length];
    [| split; [lia | constructor]].
  split; [lia |]. constructor; [| constructor].
  repeat split; auto; unfold session_status;
    destruct (timeout_reached args run); cbn; auto;
    destruct (_ =? 0); cbn; auto.
Qed.

Lemma crash_handler_verdicts (args : Args) (run : Run) (jid tok : option string)
      (code : option Z) (e : exn) :
  Forall (eq CrashedRun) (verdicts (crash_handler args run jid tok code e)).
Proof.
  unfold crash_handler, notify_session, send_whatsapp.
  rewrite !verdicts_app.
  apply Forall_app; split; [| apply Forall_app; split; [| apply Forall_app; split]].
  - repeat constructor.
  - split_running;
      [rewrite verdicts_map_Signal |]; constructor.
  - cases; repeat constructor.
  - cases; repeat constructor.
Qed.

(** X17. A captured line that decodes to something other than an object,
    with no result event before it, makes the extraction raise an
    [AttributeError]: the run then writes no result file and no registry
    entry, and reports a crash and nothing else. *)
Theorem non_object_line_crashes_run (args : Args) (run : Run)
        (before after : list string) (line : string) (v : json) :
  resume_failed args run = false ->
  captured args run = (before ++ line :: after)%list ->
  Forall passed_over before ->
  Json.loads line = Ok v ->
  not_object v = true ->
  result_files (main args run) = [] /\
  registry_writes (main args run) = [] /\
  In (LogCrash AttributeError) (main args run) /\
  Forall (eq CrashedRun) (verdicts (main args run)).
Proof.
  intros Hresume Hlines Hbefore Hload Hv.
  assert (Hx : extract_final_text (captured args run) (stderr_text run)
               = Raise AttributeError).
  { unfold extract_final_text.
    rewrite Hlines, (first_result_passes _ _ Hbefore). cbn [first_result].
    rewrite Hload. destruct v; try discriminate; reflexivity. }
  destruct (main_writes args run) as [Hf Hr]. cbn zeta in Hf, Hr.
  rewrite Hresume, Hx in Hf, Hr.
  destruct (loop_effects_silent _ (supervise_loop_effects args run))
    as [_ [_ [_ [_ Hv']]]].
  repeat split; [exact Hf | exact Hr | |].
  - unfold main, reconcile. unfold resume_failed in Hresume. rewrite Hresume.
    unfold captured in Hx. rewrite Hx. apply in_or_app. right.
    unfold crash_handler. now left.
  - unfold main, reconcile. unfold resume_failed in Hresume. rewrite Hresume.
    unfold captured in Hx. rewrite Hx, verdicts_app, Hv'.
    apply crash_handler_verdicts.
Qed.

Lemma carries_nothing (lines : list string) :
  Forall (fun line => line_carries line []) lines ->
  exists fragments,
    Forall2 line_carries lines fragments /\ List.concat fragments = [].
Proof.
  induction 1 as [| line lines Hline _ [fragments [Hall Hnone]]].
  - exists []. split; [constructor | reflexivity].
  - exists ([] :: fragments). split; [now constructor | exact Hnone].
Qed.

(** X18. When the captured stream has no result event and no assistant
    text, the final text is what the subprocess wrote to its error stream,
    or the no-output notice when that is empty. *)
Theorem no_text_falls_back_to_stderr (lines : list string) (err : string) :
  Forall passed_over lines ->
  Forall (fun line => line_carries line []) lines ->
  extract_final_text lines err
  = Ok (JStr (if String.eqb err "" then no_output else err)).
Proof.
  intros Hnone Hcarry.
  destruct (carries_nothing _ Hcarry) as [fragments [Hall Hempty]].
  unfold extract_final_text.
  rewrite <- (app_nil_r lines) at 1. rewrite (first_result_passes _ _ Hnone).
  cbn. rewrite (assistant_text_carries _ _ Hall), Hempty. cbn.
  now destruct (String.eqb err "").
Qed.

Lemma direct_crash_messages_app (a b : list effect) :
  direct_crash_messages (a ++ b)
  = (direct_crash_messages a ++ direct_crash_messages b)%list.
Proof. apply filter_app. Qed.

(** X19. The direct crash message of the handler is never sent: it is
    for a run with a group and no session key, and the group comes from
    the session key. *)
Theorem direct_crash_message_is_never_sent (args : Args) (run : Run) :
  direct_crash_messages (main args run) = [].
Proof.
  destruct (loop_effects_plain _ (supervise_loop_effects args run)) as [_ [Hd _]].
  unfold main. rewrite direct_crash_messages_app, Hd. cbn [app].
  assert (Hkey : forall jid, extract_group_jid (session args) = Some jid ->
                             negb (given (session args)) = false).
  { intros jid Hjid. now destruct (group_jid_given _ _ Hjid) as [-> _]. }
  apply reconcile_ind.
  - intros _. unfold notify_session, send_whatsapp. cases.
  - intros _ e. unfold crash_handler, notify_session, send_whatsapp.
    rewrite !direct_crash_messages_app.
    assert (Hs : forall calls, direct_crash_messages (map Signal calls) = [])
      by (intros calls; now apply filter_map_Signal).
    split_running; rewrite ?Hs;
    destruct (extract_group_jid (session args)) as [jid |] eqn:Hjid.
    all: rewrite ?(Hkey _ eq_refl), ?andb_false_r; cases.
  - intros _ text _. unfold report, notify_session, send_whatsapp. cbn [fst].
    rewrite !direct_crash_messages_app. cases.
Qed.

Lemma char_count_nonneg (s : string) : 0 <= Text.char_count s.
Proof.
  induction s as [| c s IH]; cbn; [lia |].
  destruct (Text.is_continuation c); lia.
Qed.

Lemma take_chars_bound (n : nat) (s : string) :
  Text.char_count (Text.take_chars n s) = Z.min (Z.of_nat n) (Text.char_count s).
Proof.
  revert n. induction s as [| c s IH]; intros n; cbn [Text.take_chars Text.char_count].
  - lia.
  - pose proof (char_count_nonneg s) as Hs.
    destruct (Text.is_continuation c) eqn:E.
    + cbn [Text.char_count]. rewrite E, IH. lia.
    + destruct n as [| k]; cbn [Text.char_count]; [lia |].
      rewrite E, IH. lia.
Qed.

Lemma excerpt_fits (n : nat) (s : string) :
  (Text.char_count (Text.take_chars n s) <=? Z.of_nat n) = true.
Proof. apply Z.leb_le. rewrite take_chars_bound. lia. Qed.

Lemma notify_session_bounded (tok key : string) (jid : option string) (body : notice) :
  excerpts_bounded body = true ->
  forallb effect_bounded (notify_session tok key jid body) = true.
Proof.
  intros Hb. unfold notify_session, send_whatsapp.
  destruct jid as [j |]; [destruct (given (Some j)) |];
    destruct (negb (String.eqb key "")); cbn; rewrite ?Hb; reflexivity.
Qed.

(** X20. No terminal message of a run shows more than 200 characters of
    the task or more than 2000 of the result. *)
Theorem excerpts_are_bounded (args : Args) (run : Run) :
  forallb effect_bounded (main args run) = true.
Proof.
  destruct (loop_effects_plain _ (supervise_loop_effects args run)) as [_ [_ Hb]].
  unfold main. rewrite forallb_app, Hb. cbn [andb].
  assert (Htask : (Text.char_count (Text.take_chars 200 (task args)) <=? 200) = true)
    by exact (excerpt_fits 200 (task args)).
  apply reconcile_ind.
  - intros _. cbn [forallb effect_bounded].
    destruct (session args), (load_token args run), (resume args); try reflexivity.
    destruct (_ && _ && _); [now apply notify_session_bounded | reflexivity].
  - intros _ e. unfold crash_handler, send_whatsapp. rewrite !forallb_app.
    cbn [forallb effect_bounded andb].
    repeat (apply andb_true_iff; split).
    + split_running;
        [| reflexivity].
      apply forallb_forall. intros x Hx. apply in_map_iff in Hx as [c [<- _]].
      reflexivity.
    + destruct (session args), (load_token args run); try reflexivity.
      destruct (_ && _); [| reflexivity].
      apply notify_session_bounded. exact Htask.
    + destruct (extract_group_jid (session args)), (load_token args run);
        try reflexivity.
      now destruct (_ && _ && _).
  - intros _ text _. unfold report. cbn [fst]. rewrite !forallb_app.
    cbn [forallb effect_bounded andb].
    apply andb_true_iff; split;
      [now destruct (Py.truthy _) |].
    destruct (session args), (load_token args run); try reflexivity.
    destruct (_ && _); [| reflexivity].
    assert (Htext : (Text.char_count (Text.take_chars 2000 text) <=? 2000) = true)
      by exact (excerpt_fits 2000 text).
    apply notify_session_bounded.
    destruct (le_timed_out _); [| destruct (_ =? 0)];
      cbn [excerpts_bounded]; now rewrite Htask, Htext.
Qed.

Lemma notify_session_wakes (tok key : string) (jid : option string) (body : notice) :
  given (Some key) = true ->
  List.length (wakeups (notify_session tok key jid body)) = 1%nat.
Proof.
  cbn [given]. intros Hkey. unfold notify_session, send_whatsapp. rewrite Hkey.
  destruct jid as [j |]; [destruct (given (Some j)) |]; reflexivity.
Qed.

(** X21. A run wakes the calling session at most once: exactly once when
    it has a usable token and is not a failed resume, whether it ends in
    success, failure, timeout or crash (a failed resume also needs the
    group), and never without a usable token. *)
Theorem session_is_woken_once (args : Args) (run : Run) :
  List.length (wakeups (main args run))
  = (if given (load_token args run)
        && (negb (resume_failed args run) || given (extract_group_jid (session args)))
     then 1%nat else 0%nat).
Proof.
  destruct (loop_effects_plain _ (supervise_loop_effects args run)) as [Hw _].
  unfold main. rewrite wakeups_app, Hw. cbn [app].
  assert (Hkey : given (load_token args run) = true -> given (session args) = true).
  { unfold load_token. now destruct (given (session args)). }
  assert (Hsend : forall body,
             List.length
               (wakeups
                  match session args, load_token args run with
                  | Some key, Some tok =>
                      if given (session args) && given (load_token args run)
                      then notify_session tok key (extract_group_jid (session args)) body
                      else []
                  | _, _ => []
                  end)
             = (if given (load_token args run) then 1%nat else 0%nat)).
  { intros body. destruct (load_token args run) as [tok |] eqn:Htok;
      [| now destruct (session args)].
    destruct (given (Some tok)) eqn:Hgiven.
    - rewrite (Hkey eq_refl). destruct (session args) as [key |] eqn:Hs;
        [| now specialize (Hkey eq_refl)].
      cbn [andb]. apply notify_session_wakes. now apply Hkey.
    - rewrite andb_false_r. now destruct (session args). }
  apply reconcile_ind.
  - intros Hrf. rewrite Hrf. cbn [negb orb wakeups filter].
    fold (wakeups
            match session args, load_token args run, resume args with
            | Some key, Some t, Some id =>
                if given (session args) && given (load_token args run)
                   && given (extract_group_jid (session args))
                then notify_session t key (extract_group_jid (session args))
                                    (ResumeFailed id)
                else []
            | _, _, _ => []
            end).
    destruct (load_token args run) as [tok |] eqn:Htok;
      [| now destruct (session args)].
    destruct (given (Some tok)) eqn:Hgiven.
    + rewrite (Hkey eq_refl). destruct (session args) as [key |] eqn:Hs;
        [| now specialize (Hkey eq_refl)].
      destruct (resume args) as [id |] eqn:Hres;
        [| unfold resume_failed in Hrf; rewrite Hres in Hrf; discriminate].
      cbn [andb]. destruct (given (extract_group_jid (Some key))); [| reflexivity].
      apply notify_session_wakes. now apply Hkey.
    + rewrite andb_false_r. cbn [andb]. now destruct (session args), (resume args).
  - intros -> e. cbn [negb orb]. rewrite andb_true_r.
    unfold crash_handler, send_whatsapp. rewrite !wakeups_app.
    assert (Hs : forall calls, wakeups (map Signal calls) = [])
      by (intros calls; now apply filter_map_Signal).
    replace (wakeups
               match extract_group_jid (session args), load_token args run with
               | Some jid, Some tok =>
                   if given (extract_group_jid (session args))
                      && given (load_token args run) && negb (given (session args))
                   then [WhatsApp tok jid true (CrashedDirect e)]
                   else []
               | _, _ => []
               end) with (@nil effect)
      by (destruct (extract_group_jid (session args)), (load_token args run);
          try reflexivity; now destruct (_ && _ && _)).
    rewrite app_nil_r.
    split_running; rewrite ?Hs; cbn [wakeups filter app]; apply Hsend.
  - intros -> text _. cbn [negb orb]. rewrite andb_true_r.
    unfold report. cbn [fst]. rewrite !wakeups_app.
    match goal with
    | |- context [if Py.truthy ?v then ?l else []] =>
        replace (wakeups (if Py.truthy v then l else [])) with (@nil effect)
          by now destruct (Py.truthy v)
    end.
    cbn [wakeups filter app]. apply Hsend.
Qed.

End RunFacts.

(** * Instances of the further properties *)

Lemma group_jid_is_a_field_witness :
  extract_group_jid (Some group_session) = Some "120363@g.us" /\
  exists k, Some group_session = Some k /\
            In "120363@g.us" (Text.split_on ":" k) /\
            Text.contains "@g.us" "120363@g.us" = true /\
            Text.contains ":" "120363@g.us" = false.
Proof.
  split; [reflexivity |].
  apply (group_jid_is_a_field (Some group_session) "120363@g.us"). reflexivity.
Defined.


Lemma object_line_refreshes_liveness_witness :
  let items := [("type", JStr "result"); ("result", JStr "ok")] in
  Json.loads (result_line "ok") = Ok (JObj items) /\
  last_event_time
    (fst (@parse_stream_line example_runtime (result_line "ok") 5 (initial_state 0)))
  = 5.
Proof.
  split; [reflexivity |].
  apply (@object_line_refreshes_liveness example_runtime (result_line "ok") 5
           (initial_state 0) [("type", JStr "result"); ("result", JStr "ok")]).
  reflexivity.
Defined.

Lemma unknown_event_only_refreshes_liveness_witness :
  let line := Json.text "{'type':'ping'}" in
  let items := [("type", JStr "ping")] in
  Json.loads line = Ok (JObj items) /\
  handled_type (match Py.lookup items "type" with
                | Some ty => ty
                | None => JStr ""
                end) = false /\
  @parse_stream_line example_runtime line 5 (initial_state 0)
  = (fst (set_last_event_time 5 (initial_state 0)), Ok tt).
Proof.
  split; [reflexivity |]. split; [reflexivity |].
  apply (@unknown_event_only_refreshes_liveness example_runtime
           (Json.text "{'type':'ping'}") 5 (initial_state 0) [("type", JStr "ping")]);
    reflexivity.
Defined.

Lemma init_event_replaces_session_id_witness :
  let items := [("type", JStr "system"); ("subtype", JStr "init");
                ("session_id", JStr "0a1b")] in
  let st := fst (set_session_id (JStr "old") (initial_state 0)) in
  Json.loads (init_line "0a1b") = Ok (JObj items) /\
  Py.lookup items "type" = Some (JStr "system") /\
  Py.lookup items "subtype" = Some (JStr "init") /\
  Py.lookup items "session_id" = Some (JStr "0a1b") /\
  Py.truthy (JStr "0a1b") = true /\
  @parse_stream_line example_runtime (init_line "0a1b") 5 st
  = (fst (set_session_id (JStr "0a1b") (fst (set_last_event_time 5 st))), Ok tt).
Proof.
  repeat (split; [reflexivity |]).
  apply (@init_event_replaces_session_id example_runtime (init_line "0a1b") 5
           (fst (set_session_id (JStr "old") (initial_state 0)))
           [("type", JStr "system"); ("subtype", JStr "init");
            ("session_id", JStr "0a1b")] (JStr "0a1b"));
    reflexivity.
Defined.

Lemma reader_stops_at_raise_witness :
  let r := fresh_reader (steady_run 0 [] "") in
  let later := [(result_line "ok", 6)] in
  rd_dead r = false /\
  String.eqb (Whitespace.strip "123") "" = false /\
  snd (@parse_stream_line example_runtime (Whitespace.strip "123") 5 (rd_state r))
  = Raise AttributeError /\
  @reader example_runtime r (("123", 5) :: later)
  = {| rd_state :=
         fst (@parse_stream_line example_runtime (Whitespace.strip "123") 5 (rd_state r));
       rd_output_lines := (rd_output_lines r ++ [Whitespace.strip "123"])%list;
       rd_dead := true |}.
Proof.
  repeat (split; [reflexivity |]).
  apply (@reader_stops_at_raise example_runtime (fresh_reader (steady_run 0 [] ""))
           "123" 5 AttributeError [(result_line "ok", 6)]);
    reflexivity.
Defined.

Lemma silent_heartbeat_hides_activity_witness :
  let st := initial_state 0 in
  (120 * second < 130 * second \/
   (15 * second < 130 * second /\ chunks_since_heartbeat st = 0)) /\
  @heartbeat_text example_runtime 120 (130 * second)
                  (fst (set_last_activity "Reading" st))
  = @heartbeat_text example_runtime 120 (130 * second) st.
Proof.
  split; [left; reflexivity |].
  apply (@silent_heartbeat_hides_activity example_runtime 120 (130 * second)
           (initial_state 0) "Reading").
  left. reflexivity.
Defined.

Lemma no_token_no_request_witness :
  let args := example_args None 7200 None in
  let run := steady_run 2 [result_line "Done."] "" in
  given (load_token args run) = false /\
  requests (@main example_runtime args run) = [].
Proof.
  split; [reflexivity |].
  apply (@no_token_no_request example_runtime). reflexivity.
Defined.


Lemma non_object_line_crashes_run_witness :
  let args := example_args (Some plain_session) 7200 None in
  let run := steady_run 2 ["123"; result_line "Done."] "" in
  resume_failed args run = false /\
  @captured example_runtime args run = ([] ++ "123" :: [])%list /\
  Forall passed_over [] /\
  Json.loads "123" = Ok (JInt 123) /\
  not_object (JInt 123) = true /\
  result_files (@main example_runtime args run) = [] /\
  registry_writes (@main example_runtime args run) = [] /\
  In (LogCrash AttributeError) (@main example_runtime args run) /\
  Forall (eq CrashedRun) (verdicts (@main example_runtime args run)).
Proof.
  split; [reflexivity |]. split; [reflexivity |]. split; [constructor |].
  split; [reflexivity |]. split; [reflexivity |].
  apply (@non_object_line_crashes_run example_runtime
           (example_args (Some plain_session) 7200 None)
           (steady_run 2 ["123"; result_line "Done."] "") [] [] "123" (JInt 123));
    try reflexivity.
  constructor.
Defined.

Lemma no_text_falls_back_to_stderr_witness :
  let ping := Json.text "{'type':'ping'}" in
  Forall passed_over ["oops"; ping] /\
  Forall (fun line => line_carries line []) ["oops"; ping] /\
  extract_final_text ["oops"; ping] "boom"
  = Ok (JStr (if String.eqb "boom" "" then no_output else "boom")).
Proof.
  assert (Hpass : Forall passed_over ["oops"; Json.text "{'type':'ping'}"]).
  { constructor; [left; reflexivity |].
    constructor; [| constructor].
    right. exists [("type", JStr "ping")]. split; reflexivity. }
  assert (Hcarry : Forall (fun line => line_carries line [])
                          ["oops"; Json.text "{'type':'ping'}"]).
  { constructor; [apply carries_undecodable; reflexivity |].
    constructor; [| constructor].
    apply (carries_not_assistant _ [("type", JStr "ping")]); reflexivity. }
  split; [exact Hpass |]. split; [exact Hcarry |].
  exact (no_text_falls_back_to_stderr ["oops"; Json.text "{'type':'ping'}"] "boom"
           Hpass Hcarry).
Defined.
